(** * Bingwa Data Deals bot: the conversation engine of [telegram_bot.py]

    A shallow embedding of the purchase conversation, the phone number
    normalizer, the catalog, the user directory, the payment call and the
    admin broadcast of [src/telegram_bot.py], with the properties the
    specification states about them; then of the admin panel and of the
    application [main] builds from the two conversations, with further
    properties of the code.

    Conventions of the embedding:
    - a Python [str] is the list of its code points ([ustr]); the keys of
      [context.user_data], which the program only ever writes as literals,
      are Rocq strings;
    - a handler is a function from the conversation's data and the inputs it
      reads (the update, the objects the transport hands back, the clock, the
      gateway's reply) to the data it leaves, the value it returns and the
      calls it made, in order;
    - [reply_text] and [answer] are taken to return; a call the program wraps
      in [try] carries the outcome of that call. *)

From Stdlib Require Import ZArith NArith Ascii String.
From Stdlib Require Import DecimalString DecimalPos DecimalZ.
From stdpp Require Import gmap strings list fin_maps.

Local Open Scope N_scope.

(** ** Python strings *)

(** A [str]: the sequence of its Unicode code points. *)
Definition ustr := list N.

(** The [str] written by an ASCII literal of the program. *)
Fixpoint u (s : string) : ustr :=
  match s with
  | EmptyString => []
  | String a s' => N_of_ascii a :: u s'
  end.

(** Back to bytes; [None] when a code point is above U+00FF. *)
Fixpoint to_bytes (s : ustr) : option string :=
  match s with
  | [] => Some EmptyString
  | c :: s' =>
      if c <? 256 then option_map (String (ascii_of_N c)) (to_bytes s') else None
  end.

(** [str(n)] for an [int]. *)
Definition py_str (n : Z) : ustr := u (NilZero.string_of_int (Z.to_int n)).

(** [int(s)] on the strings the program applies it to: an optional minus
    sign and ASCII decimal digits.  [None] stands for [ValueError]. *)
Definition py_int (s : ustr) : option Z :=
  match to_bytes s with
  | Some b => option_map Z.of_int (NilZero.int_of_string b)
  | None => None
  end.

(** [s.split(sep)] for a one-character separator. *)
Fixpoint py_split_aux (sep : N) (cur : ustr) (s : ustr) : list ustr :=
  match s with
  | [] => [rev cur]
  | c :: s' =>
      if c =? sep then rev cur :: py_split_aux sep [] s'
      else py_split_aux sep (c :: cur) s'
  end.

Definition py_split (sep : N) (s : ustr) : list ustr := py_split_aux sep [] s.

(** The whitespace of the ASCII range: what [str.isspace], [str.strip] and
    the class [\s] of a [str] pattern accept below U+0080. *)
Definition ascii_space (c : N) : bool :=
  ((9 <=? c) && (c <=? 13)) || ((28 <=? c) && (c <=? 32)).

Definition ascii_digit (c : N) : bool := (48 <=? c) && (c <=? 57).

(** [s.lower()] on the letters A to Z.  The program compares the result
    with ['/cancel'] only, and no character outside ASCII lowers to one of
    the characters of that string. *)
Definition lower_char (c : N) : N :=
  if (65 <=? c) && (c <=? 90) then c + 32 else c.

Definition py_lower (s : ustr) : ustr := map lower_char s.

(** The Unicode database of CPython 3.11 (Unicode 14.0) above U+007F: the
    whitespace code points, and the first code point of each run of ten
    decimal digits (category Nd). *)
Definition unicode14_space (c : N) : bool :=
  (c =? 0x85) || (c =? 0xA0) || (c =? 0x1680)
  || ((0x2000 <=? c) && (c <=? 0x200A))
  || (c =? 0x2028) || (c =? 0x2029) || (c =? 0x202F) || (c =? 0x205F)
  || (c =? 0x3000).

Definition unicode14_decimal_runs : list N :=
  [ 0x660; 0x6F0; 0x7C0; 0x966; 0x9E6; 0xA66; 0xAE6; 0xB66; 0xBE6; 0xC66;
    0xCE6; 0xD66; 0xDE6; 0xE50; 0xED0; 0xF20; 0x1040; 0x1090; 0x17E0; 0x1810;
    0x1946; 0x19D0; 0x1A80; 0x1A90; 0x1B50; 0x1BB0; 0x1C40; 0x1C50; 0xA620;
    0xA8D0; 0xA900; 0xA9D0; 0xA9F0; 0xAA50; 0xABF0; 0xFF10; 0x104A0; 0x10D30;
    0x11066; 0x110F0; 0x11136; 0x111D0; 0x112F0; 0x11450; 0x114D0; 0x11650;
    0x116C0; 0x11730; 0x118E0; 0x11950; 0x11C50; 0x11D50; 0x11DA0; 0x16A60;
    0x16AC0; 0x16B50; 0x1D7CE; 0x1D7D8; 0x1D7E2; 0x1D7EC; 0x1D7F6; 0x1E140;
    0x1E2F0; 0x1E950; 0x1FBF0 ].

Definition unicode14_decimal (c : N) : bool :=
  existsb (fun lo => (lo <=? c) && (c <=? lo + 9)) unicode14_decimal_runs.

Local Close Scope N_scope.

(** The interpreter's Unicode database above U+007F: which code points are
    whitespace and which are decimal digits. *)
Class Unicode : Type := {
  unicode_space : N -> bool;
  unicode_decimal : N -> bool
}.

(** The database of CPython 3.11. *)
Definition unicode14 : Unicode :=
  {| unicode_space := unicode14_space; unicode_decimal := unicode14_decimal |}.

(** ** Catalog *)

(** [class DataPackage]. *)
Record DataPackage : Type := {
  display_name : ustr;
  price : Z;
  size : ustr;
  validity : ustr;
  description : ustr
}.

Definition get_full_display (p : DataPackage) : ustr := display_name p.

(** The [dict] literal [data_packages], in the order it is written: its keys
    are pairwise distinct. *)
Definition data_packages : list (ustr * DataPackage) :=
  [ (u "data_1", Build_DataPackage (u "1.25GB till midnight @ Ksh 55") 55
       (u "1.25GB") (u "Until midnight") (u "Same day data bundle"));
    (u "data_2", Build_DataPackage (u "250MB for 24hrs @ Ksh 18") 18
       (u "250MB") (u "24 Hours") (u "Daily data bundle"));
    (u "data_3", Build_DataPackage (u "1GB for 1hr @ Ksh 19") 19
       (u "1GB") (u "1 Hour") (u "Hourly data bundle"));
    (u "data_4", Build_DataPackage (u "Internet access for 3hrs @ Ksh 49") 49
       (u "Unlimited") (u "3 Hours") (u "Hourly access bundle"));
    (u "data_5", Build_DataPackage (u "1GB for 24hrs @ Ksh 95") 95
       (u "1GB") (u "24 Hours") (u "Daily data bundle"));
    (u "data_6", Build_DataPackage (u "350MB for 7 days @ Ksh 47") 47
       (u "350MB") (u "7 Days") (u "Weekly data bundle"));
    (u "data_7", Build_DataPackage (u "2GB for 24hrs @ Ksh 100") 100
       (u "2GB") (u "24 Hours") (u "Daily data bundle"));
    (u "data_8", Build_DataPackage (u "1.2GB for 30days @ Ksh 250") 250
       (u "1.2GB") (u "30 Days") (u "Monthly data bundle"));
    (u "data_9", Build_DataPackage (u "1GB for 1hr @ Ksh 20") 20
       (u "1GB") (u "1 Hour") (u "Hourly data bundle"));
    (u "data_10", Build_DataPackage (u "1.5GB for 3hrs @ Ksh 50") 50
       (u "1.5GB") (u "3 Hours") (u "Hourly data bundle"));
    (u "data_11", Build_DataPackage (u "2GB for 24hrs @ Ksh 100") 100
       (u "2GB") (u "24 Hours") (u "Daily data bundle")) ].

(** [d.get(key)] on a [dict] written as its list of items. *)
Fixpoint dict_get {V : Type} (d : list (ustr * V)) (key : ustr) : option V :=
  match d with
  | [] => None
  | (k, v) :: d' => if decide (k = key) then Some v else dict_get d' key
  end.

(** [int(k.split('_')[1])]; [None] stands for the [IndexError] or
    [ValueError] it raises. *)
Definition key_number (k : ustr) : option Z :=
  match py_split 95%N k !! 1%nat with
  | Some suffix => py_int suffix
  | None => None
  end.

(** [{k: v for k, v in items if keep(int(k.split('_')[1]))}]; [None] when
    the condition raises on some key. *)
Fixpoint select_packages (keep : Z -> bool) (items : list (ustr * DataPackage))
    : option (list (ustr * DataPackage)) :=
  match items with
  | [] => Some []
  | (k, v) :: rest =>
      match key_number k with
      | Some n =>
          match select_packages keep rest with
          | Some chosen => Some (if keep n then (k, v) :: chosen else chosen)
          | None => None
          end
      | None => None
      end
  end.

(** The comprehension of [show_bingwa_deals]. *)
Definition bingwa_packages : option (list (ustr * DataPackage)) :=
  select_packages (fun n => n <=? 8)%Z data_packages.

(** The comprehension of [show_normal_deals]. *)
Definition normal_packages : option (list (ustr * DataPackage)) :=
  select_packages (fun n => n >? 8)%Z data_packages.

(** ** User directory *)

(** [update.effective_user]. *)
Record User : Type := {
  user_id : Z;
  user_username : option ustr;
  user_first_name : ustr;
  user_last_name : option ustr
}.

(** An entry of the ["users"] list of [user_data.json]. *)
Record user_record : Type := {
  rec_id : ustr;
  rec_username : option ustr;
  rec_first_name : ustr;
  rec_last_name : option ustr;
  rec_joined : ustr;
  rec_last_active : ustr
}.

(** [USER_DATA_FILE]: the users it holds, or [None] when the file does not
    exist or [json.load] fails on it. *)
Definition user_file := option (list user_record).

Definition load_user_data (file : user_file) : list user_record :=
  match file with
  | Some users => users
  | None => []
  end.

(** [written] tells whether the [open] and [json.dump] of this call go
    through; when they raise the file is taken to stay as it was. *)
Definition save_user_data (users : list user_record) (written : bool)
    (file : user_file) : user_file :=
  if written then Some users else file.

(** The [for existing_user in data["users"]] loop: the first entry with the
    id is updated in place; [None] when the loop ends without finding one. *)
Fixpoint update_existing (uid : ustr) (user : User) (now : ustr)
    (users : list user_record) : option (list user_record) :=
  match users with
  | [] => None
  | e :: rest =>
      if decide (rec_id e = uid) then
        Some ({| rec_id := rec_id e;
                 rec_username := user_username user;
                 rec_first_name := user_first_name user;
                 rec_last_name := user_last_name user;
                 rec_joined := rec_joined e;
                 rec_last_active := now |} :: rest)
      else option_map (cons e) (update_existing uid user now rest)
  end.

(** [register_user(user)]; [clock n] is what the [n]-th
    [datetime.datetime.now().isoformat()] of the call returns. *)
Definition register_user (user : User) (clock : nat -> ustr) (written : bool)
    (file : user_file) : user_file :=
  let users := load_user_data file in
  let uid := py_str (user_id user) in
  match update_existing uid user (clock 0%nat) users with
  | Some users' => save_user_data users' written file
  | None =>
      save_user_data
        (users ++ [ {| rec_id := uid;
                       rec_username := user_username user;
                       rec_first_name := user_first_name user;
                       rec_last_name := user_last_name user;
                       rec_joined := clock 0%nat;
                       rec_last_active := clock 1%nat |} ])
        written file
  end.

(** ** Values the handlers exchange with the transport and the gateway *)

(** The values of [ConversationHandler]: the states of the two
    conversations and [ConversationHandler.END]. *)
Inductive state : Type :=
  | CHOOSING_PACKAGE
  | GETTING_PHONE
  | CONFIRMING_PURCHASE
  | ADMIN_COMMAND
  | ADMIN_BROADCAST_MESSAGE
  | END.

#[global] Instance state_eq_dec : EqDecision state.
Proof. solve_decision. Defined.

(** A [telegram.Message] object, by identity. *)
Definition message := nat.

(** What [context.user_data] holds under its keys. *)
Inductive value : Type :=
  | VPackage (p : DataPackage)
  | VStr (s : ustr)
  | VMessage (m : message).

Set Warnings "-register-all".

(** What [response.json()] returns.  A float is read by its truth value
    only, so it is kept as whether it is non-zero; a [dict] is the list of
    its items, one per key. *)
Inductive json : Type :=
  | JNull
  | JBool (b : bool)
  | JInt (n : Z)
  | JFloat (nonzero : bool)
  | JStr (s : ustr)
  | JList (l : list json)
  | JDict (d : list (ustr * json)).

(** The truth value Python gives a parsed JSON value. *)
Definition truthy (j : json) : bool :=
  match j with
  | JNull => false
  | JBool b => b
  | JInt n => negb (n =? 0)%Z
  | JFloat nonzero => nonzero
  | JStr s => negb (bool_decide (s = []))
  | JList l => match l with [] => false | _ => true end
  | JDict d => match d with [] => false | _ => true end
  end.

(** [j == 'SUCCESS'] for a value [j] that [dict.get] returned ([None] when
    the key is missing). *)
Definition is_SUCCESS (j : option json) : bool :=
  match j with
  | Some (JStr s) => bool_decide (s = u "SUCCESS")
  | _ => false
  end.

(** What [requests.post] does: it raises, or returns a response with a
    status code and a body, [None] for a body [response.json()] raises on. *)
Inductive gateway_reply : Type :=
  | Raises
  | Response (status_code : Z) (body : option json).

(** The [json=payload] argument of the call. *)
Record payload : Type := {
  amount : Z;
  phone_number : option ustr;
  channel_id : Z;
  provider : ustr;
  external_reference : ustr;
  callback_url : ustr
}.

(** The texts the bot sends, by the statement that builds them and the
    values it puts in. *)
Inductive text : Type :=
  | Welcome (first_name : ustr)
  | SelectCategoryWelcome
  | SelectCategory
  | BingwaDeals (keyboard : list (ustr * ustr))
  | NormalDeals (keyboard : list (ustr * ustr))
  | InvalidSelection
  | EnterPhone (p : DataPackage)
  | InvalidPhone
  | NoPackageSelected
  | PurchaseSummary (p : DataPackage) (phone : ustr)
  | EnterDifferentPhone
  | PurchaseConfirmed (p : DataPackage) (phone : option value) (reference : ustr)
  | PaymentSuccessful (first_name : ustr) (reference : ustr)
  | PaymentProcessing (reference : ustr)
  | PaymentFailed
  | ErrorProcessingPayment
  | SystemError
  | Cancelled
  | SupportInfo
  | Restarted
  | BroadcastCancelled
  | NoUsersFound
  | SendingBroadcast
  | Progress (sent total : nat)
  | BroadcastComplete (sent failed : nat)
  | BroadcastCompleted.

(** The calls a handler makes on its collaborators.  A call the program
    guards with [try] carries whether it returned ([true]) or raised. *)
Inductive call : Type :=
  | Answer
  | Delete (m : message) (returned : bool)
  | ReplyText (t : text)
  | RegisterUser (user : User)
  | Post (p : payload) (reply : gateway_reply)
  | SendMessage (chat_id : Z) (body : ustr) (returned : bool)
  | EditText (t : text) (returned : bool).

(** ** Payment orchestrator *)

(** The outcomes of a charge, as the specification names them. *)
Inductive Outcome : Type := Success | Pending | Failed | Error.

(** [d.get(key)] on a parsed value: [None] when [d] is no [dict] (the
    [AttributeError]), otherwise what [dict.get] returns. *)
Definition json_get (d : json) (key : ustr) : option (option json) :=
  match d with
  | JDict items => Some (dict_get items key)
  | _ => None
  end.

(** [user.first_name or "Valued Customer"]. *)
Definition customer_name (user : User) : ustr :=
  match user_first_name user with
  | [] => u "Valued Customer"
  | name => name
  end.

(** The text [initiate_stk_push] sends for a reply of the gateway: the body
    of its [try] and its [except]. *)
Definition stk_push_text (reply : gateway_reply) (user : User) (reference : ustr) : text :=
  match reply with
  | Raises => SystemError
  | Response status_code body =>
      if bool_decide (status_code = 200%Z \/ status_code = 201%Z) then
        match body with
        | None => SystemError
        | Some response_json =>
            match json_get response_json (u "success") with
            | None => SystemError
            | Some success =>
                if from_option truthy false success then
                  match json_get response_json (u "status") with
                  | None => SystemError
                  | Some status =>
                      if is_SUCCESS status then PaymentSuccessful (customer_name user) reference
                      else PaymentProcessing reference
                  end
                else PaymentFailed
            end
        end
      else ErrorProcessingPayment
  end.

(** The outcome each of these texts reports. *)
Definition outcome_of (t : text) : option Outcome :=
  match t with
  | PaymentSuccessful _ _ => Some Success
  | PaymentProcessing _ => Some Pending
  | PaymentFailed => Some Failed
  | ErrorProcessingPayment => Some Error
  | SystemError => Some Error
  | _ => None
  end.

(** [initiate_stk_push(phone_number, amount, reference, update)].  The
    phone number is what [context.user_data.get('phone_number')] gave: a
    value [json] cannot serialize makes [requests.post] raise before any
    request leaves. *)
Definition initiate_stk_push (phone : option value) (amount : Z) (reference : ustr)
    (user : User) (reply : gateway_reply) : list call :=
  let request phone_number :=
    [ Post {| amount := amount;
              phone_number := phone_number;
              channel_id := 2486;
              provider := u "m-pesa";
              external_reference := reference;
              callback_url := u "emmkash" |} reply;
      ReplyText (stk_push_text reply user reference) ] in
  match phone with
  | None => request None
  | Some (VStr s) => request (Some s)
  | Some _ => [ ReplyText SystemError ]
  end.

(** [generate_reference()], from what [format_timestamp()] and
    [str(uuid.uuid4())] return. *)
Definition generate_reference (timestamp uuid4 : ustr) : ustr :=
  u "BINGWA-" ++ timestamp ++ u "-" ++ take 8 uuid4.

(** ** Admin broadcast *)

(** The text sent to every user: a loudspeaker sign, a heading and the
    admin's message. *)
Definition broadcast_text (message_text : ustr) : ustr :=
  [0x1F4E2%N] ++ u " *Broadcast Message*" ++ [10%N; 10%N] ++ message_text.

(** The variables of [admin_broadcast] its loop changes, and the calls made
    so far.  [bound_user_id] is the local [user_id], [None] while no
    assignment has reached it. *)
Record tally : Type := {
  sent_count : nat;
  failed_count : nat;
  bound_user_id : option Z;
  calls_made : list call
}.

(** The [except Exception] clause: it formats [user_id] into the log line,
    which raises [NameError] ([None]) while the variable is unbound, and
    counts a failure. *)
Definition count_failure (sent : nat) (failed : nat) (uid : option Z)
    (calls : list call) : option tally :=
  match uid with
  | None => None
  | Some _ =>
      Some {| sent_count := sent; failed_count := S failed;
              bound_user_id := uid; calls_made := calls |}
  end.

(** One turn of [for user_data in users], for the entry at position [i].
    [delivered i] tells whether the [send_message] of that turn returns,
    [edited n] whether the progress [edit_text] made at [sent_count = n]
    does. *)
Definition broadcast_turn (delivered edited : nat -> bool) (body : ustr) (total : nat)
    (i : nat) (e : user_record) (t : tally) : option tally :=
  match py_int (rec_id e) with
  | None => count_failure (sent_count t) (failed_count t) (bound_user_id t) (calls_made t)
  | Some uid =>
      let calls := calls_made t ++ [SendMessage uid body (delivered i)] in
      if delivered i then
        let sent := S (sent_count t) in
        if (sent mod 10 =? 0)%nat then
          let calls' := calls ++ [EditText (Progress sent total) (edited sent)] in
          if edited sent then
            Some {| sent_count := sent; failed_count := failed_count t;
                    bound_user_id := Some uid; calls_made := calls' |}
          else count_failure sent (failed_count t) (Some uid) calls'
        else
          Some {| sent_count := sent; failed_count := failed_count t;
                  bound_user_id := Some uid; calls_made := calls |}
      else count_failure (sent_count t) (failed_count t) (Some uid) calls
  end.

Fixpoint broadcast_loop (delivered edited : nat -> bool) (body : ustr) (total : nat)
    (i : nat) (users : list user_record) (t : tally) : option tally :=
  match users with
  | [] => Some t
  | e :: rest =>
      match broadcast_turn delivered edited body total i e t with
      | Some t' => broadcast_loop delivered edited body total (S i) rest t'
      | None => None
      end
  end.

(** [admin_broadcast(update, context)]: the state it returns and the calls
    it made, or [None] when it raises. *)
Definition admin_broadcast (message_text : ustr) (file : user_file)
    (delivered edited : nat -> bool) : option (state * list call) :=
  if decide (py_lower message_text = u "/cancel") then
    Some (END, [ReplyText BroadcastCancelled])
  else
    let users := load_user_data file in
    match users with
    | [] => Some (END, [ReplyText NoUsersFound])
    | _ :: _ =>
        match broadcast_loop delivered edited (broadcast_text message_text)
                (length users) 0 users
                {| sent_count := 0; failed_count := 0; bound_user_id := None;
                   calls_made := [ReplyText SendingBroadcast] |} with
        | Some t =>
            Some (ADMIN_COMMAND,
                  calls_made t
                  ++ [ EditText (BroadcastComplete (sent_count t) (failed_count t)) true;
                       ReplyText BroadcastCompleted ])
        | None => None
        end
    end.

(** ** Regular expressions of the [re] module

    The fragment the patterns of the program use: literals, [\d], [\d+],
    concatenation, [|], [?], [{n}], one capturing group and [$].  The
    leading [^] of a pattern holds where [re.match] starts, so it has no
    node. *)
Inductive regex : Type :=
  | RLit (l : ustr)
  | RDigit
  | RDigits
  | RSeq (r1 r2 : regex)
  | RAlt (r1 r2 : regex)
  | ROpt (r : regex)
  | RRep (n : nat) (r : regex)
  | RGroup (r : regex)
  | REnd.

(** What is left of [s] after its prefix [l]. *)
Fixpoint strip_prefix (l s : ustr) : option ustr :=
  match l, s with
  | [], _ => Some s
  | a :: l', c :: s' => if (a =? c)%N then strip_prefix l' s' else None
  | _ :: _, [] => None
  end.

Section Engine.

Context {U : Unicode}.

(** [\s] and [\d] of a [str] pattern. *)
Definition is_space (c : N) : bool :=
  if (c <? 128)%N then ascii_space c else unicode_space c.

Definition is_digit (c : N) : bool :=
  if (c <? 128)%N then ascii_digit c else unicode_decimal c.

Fixpoint py_lstrip (s : ustr) : ustr :=
  match s with
  | c :: s' => if is_space c then py_lstrip s' else s
  | [] => []
  end.

(** [s.strip()]. *)
Definition py_strip (s : ustr) : ustr := rev (py_lstrip (rev (py_lstrip s))).

(** The backtracking matcher: [rmatch r s g k] matches [r] at the front of
    [s], group 1 holding [g] so far, and hands what is left and the group to
    [k]; an alternative that makes [k] fail is given up for the next one, in
    the order [re] tries them. *)
Fixpoint rmatch (r : regex) (s : ustr) (g : option ustr)
    (k : ustr -> option ustr -> option (option ustr)) : option (option ustr) :=
  match r with
  | RLit l =>
      match strip_prefix l s with
      | Some s' => k s' g
      | None => None
      end
  | RDigit =>
      match s with
      | c :: s' => if is_digit c then k s' g else None
      | [] => None
      end
  | RDigits =>
      (fix more (s : ustr) : option (option ustr) :=
         match s with
         | c :: s' =>
             if is_digit c then
               match more s' with
               | Some a => Some a
               | None => k s' g
               end
             else None
         | [] => None
         end) s
  | RSeq r1 r2 => rmatch r1 s g (fun s' g' => rmatch r2 s' g' k)
  | RAlt r1 r2 =>
      match rmatch r1 s g k with
      | Some a => Some a
      | None => rmatch r2 s g k
      end
  | ROpt r1 =>
      match rmatch r1 s g k with
      | Some a => Some a
      | None => k s g
      end
  | RRep n r1 =>
      (fix rep (n : nat) (s : ustr) (g : option ustr) : option (option ustr) :=
         match n with
         | O => k s g
         | S n' => rmatch r1 s g (fun s' g' => rep n' s' g')
         end) n s g
  | RGroup r1 =>
      rmatch r1 s g (fun s' _ => k s' (Some (take (length s - length s') s)))
  | REnd =>
      match s with
      | [] => k s g
      | [10%N] => k s g
      | _ => None
      end
  end.

(** [re.match(pattern, s)]: [None] when there is no match, otherwise
    [m.group(1)] of the match object ([None] for a group that took no part). *)
Definition re_match (pattern : regex) (s : ustr) : option (option ustr) :=
  rmatch pattern s None (fun _ g => Some g).

(** What a match of [r] is: [matches r s s' g g'] when [r] can take
    [s] down to [s'], changing group 1 from [g] to [g']. *)
Fixpoint matches (r : regex) (s s' : ustr) (g g' : option ustr) : Prop :=
  match r with
  | RLit l => s = l ++ s' /\ g' = g
  | RDigit => exists c, s = c :: s' /\ is_digit c = true /\ g' = g
  | RDigits =>
      exists ds, ds <> [] /\ forallb is_digit ds = true /\ s = ds ++ s' /\ g' = g
  | RSeq r1 r2 => exists s1 g1, matches r1 s s1 g g1 /\ matches r2 s1 s' g1 g'
  | RAlt r1 r2 => matches r1 s s' g g' \/ matches r2 s s' g g'
  | ROpt r1 => matches r1 s s' g g' \/ (s' = s /\ g' = g)
  | RRep n r1 =>
      (fix rep (n : nat) (s : ustr) (g : option ustr) : Prop :=
         match n with
         | O => s' = s /\ g' = g
         | S n' => exists s1 g1, matches r1 s s1 g g1 /\ rep n' s1 g1
         end) n s g
  | RGroup r1 =>
      exists g0, matches r1 s s' g g0 /\ g' = Some (take (length s - length s') s)
  | REnd => s' = s /\ g' = g /\ (s = [] \/ s = [10%N])
  end.

(** ** Phone normalizer *)

(** The class [[\s\-\(\)]]. *)
Definition is_separator (c : N) : bool :=
  is_space c || (c =? 45)%N || (c =? 40)%N || (c =? 41)%N.

(** [re.sub(r'[\s\-\(\)]', '', phone)]. *)
Definition remove_separators (phone : ustr) : ustr :=
  List.filter (fun c => negb (is_separator c)) phone.

(** [(?:\+254|254)?] *)
Definition country_code : regex := ROpt (RAlt (RLit (u "+254")) (RLit (u "254"))).

(** [(7\d{8})$] and [(1\d{8})$]. *)
Definition subscriber_group (lead : string) : regex :=
  RSeq (RGroup (RSeq (RLit (u lead)) (RRep 8 RDigit))) REnd.

Definition patterns : list regex :=
  [ RSeq country_code (subscriber_group "7");
    RSeq country_code (subscriber_group "1");
    RSeq (RLit (u "0")) (subscriber_group "7");
    RSeq (RLit (u "0")) (subscriber_group "1") ].

(** [f"254{match.group(1)}"]. *)
Definition format_254 (g : option ustr) : ustr :=
  u "254" ++ match g with Some s => s | None => u "None" end.

(** The [for pattern in patterns] loop. *)
Fixpoint first_match (ps : list regex) (phone : ustr) : option ustr :=
  match ps with
  | [] => None
  | p :: ps' =>
      match re_match p phone with
      | Some g => Some (format_254 g)
      | None => first_match ps' phone
      end
  end.

Definition is_valid_phone_number (phone : ustr) : option ustr :=
  first_match patterns (remove_separators phone).

(** A subscriber number: 7 or 1, then eight digits. *)
Definition is_subscriber (s : ustr) : bool :=
  match s with
  | lead :: ds =>
      ((lead =? 55)%N || (lead =? 49)%N) && (length ds =? 8)%nat && forallb is_digit ds
  | [] => false
  end.

(** The ways of writing the subscriber number [s], separators removed:
    bare, with a leading zero, with the country code, with [+] and the
    country code. *)
Definition accepted_variant (s t : ustr) : Prop :=
  t = s \/ t = u "0" ++ s \/ t = u "254" ++ s \/ t = u "+254" ++ s.

(** ** Conversation engine *)

(** What a run of a handler reads besides the update and
    [context.user_data]: the user of the update, the [Message] object the
    [n]-th [reply_text] of the run returns, whether the [delete] it guards
    returns, what the clock and [uuid4] give, and what the gateway does. *)
Record inputs : Type := {
  effective_user : User;
  replies : nat -> message;
  deleted : bool;
  timestamp : ustr;
  uuid4 : ustr;
  gateway : gateway_reply
}.

(** An update the transport delivers: a new message that is a command
    ([/name]), a button press with its [callback_data] and the message that
    carried the button, or a new message whose text is no command. *)
Inductive update : Type :=
  | Command (name : ustr)
  | CallbackQuery (data : ustr) (origin : message)
  | TextMessage (body : ustr).

(** What a run of a handler leaves: the state it returned ([None] when it
    raised), [context.user_data], and the calls it made, in order. *)
Record result : Type := {
  returned : option state;
  data : gmap string value;
  calls : list call
}.

(** A handler that first makes [before] and then goes on as [r]. *)
Definition after (before : list call) (r : result) : result :=
  {| returned := returned r; data := data r; calls := before ++ calls r |}.

(** [show_bundles], entered after [n] earlier [reply_text] calls of the run. *)
Definition show_bundles (i : inputs) (n : nat) (ud : gmap string value) : result :=
  {| returned := Some CHOOSING_PACKAGE;
     data := <["last_message" := VMessage (replies i n)]> ud;
     calls := [RegisterUser (effective_user i); ReplyText SelectCategoryWelcome] |}.

Definition start (i : inputs) (ud : gmap string value) : result :=
  after [RegisterUser (effective_user i);
         ReplyText (Welcome (user_first_name (effective_user i)))]
        (show_bundles i 1 ∅).

Definition restart_command (i : inputs) (ud : gmap string value) : result :=
  after [ReplyText Restarted] (show_bundles i 1 ∅).

(** The rows of a package menu: a button per package, labelled with the
    package and carrying its key, then back, support and cancel. *)
Definition deals_keyboard (packages : list (ustr * DataPackage)) : list (ustr * ustr) :=
  map (fun kv => (get_full_display (snd kv), fst kv)) packages
  ++ [ ([0x2B05%N; 0xFE0F%N] ++ u " Back to Categories", u "back_to_categories");
       ([0x1F4DE%N] ++ u " Customer Support", u "support");
       ([0x274C%N] ++ u " Cancel", u "cancel_purchase") ].

Definition show_deals (packages : option (list (ustr * DataPackage)))
    (menu : list (ustr * ustr) -> text) (i : inputs) (origin : message)
    (ud : gmap string value) : result :=
  match packages with
  | Some chosen =>
      {| returned := Some CHOOSING_PACKAGE;
         data := <["last_message" := VMessage (replies i 0)]> ud;
         calls := [Answer; Delete origin (deleted i);
                   ReplyText (menu (deals_keyboard chosen))] |}
  | None => {| returned := None; data := ud; calls := [Answer] |}
  end.

Definition show_bingwa_deals : inputs -> message -> gmap string value -> result :=
  show_deals bingwa_packages BingwaDeals.

Definition show_normal_deals : inputs -> message -> gmap string value -> result :=
  show_deals normal_packages NormalDeals.

Definition back_to_categories (i : inputs) (origin : message)
    (ud : gmap string value) : result :=
  {| returned := Some CHOOSING_PACKAGE;
     data := <["last_message" := VMessage (replies i 0)]> ud;
     calls := [Answer; Delete origin (deleted i); ReplyText SelectCategory] |}.

Definition handle_support_button (ud : gmap string value) : result :=
  {| returned := Some CHOOSING_PACKAGE; data := ud;
     calls := [Answer; ReplyText SupportInfo] |}.

Definition cancel_purchase (ud : gmap string value) : result :=
  {| returned := Some END; data := ud; calls := [Answer; ReplyText Cancelled] |}.

Definition choose_package (i : inputs) (choice : ustr) (origin : message)
    (ud : gmap string value) : result :=
  if decide (choice = u "back_to_categories") then
    after [Answer] (back_to_categories i origin ud)
  else if decide (choice = u "bingwa_deals") then
    after [Answer] (show_bingwa_deals i origin ud)
  else if decide (choice = u "normal_deals") then
    after [Answer] (show_normal_deals i origin ud)
  else if decide (choice = u "support") then
    after [Answer] (handle_support_button ud)
  else if decide (choice = u "cancel_purchase") then
    after [Answer] (cancel_purchase ud)
  else
    match dict_get data_packages choice with
    | None =>
        {| returned := Some CHOOSING_PACKAGE; data := ud;
           calls := [Answer; ReplyText InvalidSelection] |}
    | Some selected_package =>
        {| returned := Some GETTING_PHONE;
           data := <["last_message" := VMessage (replies i 0)]>
                     (<["package_key" := VStr choice]>
                        (<["package" := VPackage selected_package]> ud));
           calls := [Answer; Delete origin (deleted i);
                     ReplyText (EnterPhone selected_package)] |}
    end.

(** The guarded [last_message.delete()] of [get_phone_number]: a stored
    value that is no [Message] has no [delete], which the [try] swallows. *)
Definition delete_last_message (i : inputs) (ud : gmap string value) : list call :=
  match ud !! "last_message" with
  | Some (VMessage m) => [Delete m (deleted i)]
  | _ => []
  end.

Definition get_phone_number (i : inputs) (body : ustr) (ud : gmap string value) : result :=
  let phone := py_strip body in
  let cleanup := delete_last_message i ud in
  match is_valid_phone_number phone with
  | None =>
      {| returned := Some GETTING_PHONE; data := ud;
         calls := cleanup ++ [ReplyText InvalidPhone] |}
  | Some formatted_phone =>
      match ud !! "package" with
      | None =>
          {| returned := Some END; data := ud;
             calls := cleanup ++ [ReplyText NoPackageSelected] |}
      | Some selected_package =>
          let ud' := <["phone_number" := VStr formatted_phone]> ud in
          match selected_package with
          | VPackage p =>
              {| returned := Some CONFIRMING_PURCHASE; data := ud';
                 calls := cleanup ++ [ReplyText (PurchaseSummary p formatted_phone)] |}
          | _ => {| returned := None; data := ud'; calls := cleanup |}
          end
      end
  end.

Definition handle_confirmation (i : inputs) (choice : ustr) (origin : message)
    (ud : gmap string value) : result :=
  let phone := ud !! "phone_number" in
  let selected_package := ud !! "package" in
  let opening := [Answer; Delete origin (deleted i)] in
  if decide (choice = u "change_phone") then
    {| returned := Some GETTING_PHONE;
       data := <["last_message" := VMessage (replies i 0)]> ud;
       calls := opening ++ [ReplyText EnterDifferentPhone] |}
  else
    let reference := generate_reference (timestamp i) (uuid4 i) in
    let ud' := <["reference" := VStr reference]> ud in
    match selected_package with
    | Some (VPackage p) =>
        {| returned := Some END; data := ud';
           calls := opening
                    ++ [ReplyText (PurchaseConfirmed p phone reference)]
                    ++ initiate_stk_push phone (price p) reference
                         (effective_user i) (gateway i) |}
    | _ => {| returned := None; data := ud'; calls := opening |}
    end.

(** *** The [ConversationHandler] of [main] *)

(** [^(data_\d+|section_header|support|bingwa_deals|normal_deals|back_to_categories)$] *)
Definition choose_package_pattern : regex :=
  RSeq (RGroup
          (RAlt (RSeq (RLit (u "data_")) RDigits)
          (RAlt (RLit (u "section_header"))
          (RAlt (RLit (u "support"))
          (RAlt (RLit (u "bingwa_deals"))
          (RAlt (RLit (u "normal_deals"))
                (RLit (u "back_to_categories"))))))))
       REnd.

(** [^(confirm_purchase|change_phone)$] *)
Definition confirm_pattern : regex :=
  RSeq (RGroup (RAlt (RLit (u "confirm_purchase")) (RLit (u "change_phone")))) REnd.

(** [^cancel_purchase$] *)
Definition cancel_pattern : regex := RSeq (RLit (u "cancel_purchase")) REnd.

Inductive handler : Type :=
  | start_handler
  | bundles_handler
  | restart_handler
  | choose_package_handler
  | confirm_handler
  | cancel_handler
  | phone_handler.

(** [handler.check_update(update)]: a [CommandHandler] takes its command, a
    [CallbackQueryHandler] the button presses whose data its pattern
    matches, the [MessageHandler] every text that is no command. *)
Definition check_update (h : handler) (upd : update) : bool :=
  match h, upd with
  | start_handler, Command name => bool_decide (name = u "start")
  | bundles_handler, Command name => bool_decide (name = u "bundles")
  | restart_handler, Command name => bool_decide (name = u "restart")
  | choose_package_handler, CallbackQuery d _ =>
      bool_decide (is_Some (re_match choose_package_pattern d))
  | confirm_handler, CallbackQuery d _ =>
      bool_decide (is_Some (re_match confirm_pattern d))
  | cancel_handler, CallbackQuery d _ =>
      bool_decide (is_Some (re_match cancel_pattern d))
  | phone_handler, TextMessage _ => true
  | _, _ => false
  end.

Definition entry_points : list handler :=
  [start_handler; bundles_handler; restart_handler].

Definition states (st : state) : list handler :=
  match st with
  | CHOOSING_PACKAGE => [choose_package_handler; cancel_handler]
  | GETTING_PHONE => [phone_handler; cancel_handler]
  | CONFIRMING_PURCHASE => [confirm_handler; cancel_handler]
  | _ => []
  end.

Definition fallbacks : list handler := [cancel_handler; restart_handler].

(** The handler the conversation gives the update to: outside a
    conversation ([END]) the first entry point that takes it; inside, the
    first handler of the state, then of the fallbacks. *)
Definition select_handler (st : state) (upd : update) : option handler :=
  match st with
  | END => List.find (fun h => check_update h upd) entry_points
  | _ => List.find (fun h => check_update h upd) (states st ++ fallbacks)
  end.

Definition callback (h : handler) (upd : update) (i : inputs)
    (ud : gmap string value) : result :=
  match h, upd with
  | start_handler, _ => start i ud
  | bundles_handler, _ => show_bundles i 0 ud
  | restart_handler, _ => restart_command i ud
  | choose_package_handler, CallbackQuery d origin => choose_package i d origin ud
  | confirm_handler, CallbackQuery d origin => handle_confirmation i d origin ud
  | cancel_handler, _ => cancel_purchase ud
  | phone_handler, TextMessage body => get_phone_number i body ud
  | _, _ => {| returned := None; data := ud; calls := [] |}
  end.

(** A conversation of one user in one chat: the state
    [ConversationHandler] keeps for it ([END] when there is none) and the
    user's [context.user_data]. *)
Record session : Type := {
  current : state;
  user_data : gmap string value
}.

(** The conversation handles an update: [None] when none of its handlers
    takes it, otherwise the session it leaves and the calls made.  A
    handler that raised leaves the state where it was. *)
Definition handle_update (s : session) (upd : update) (i : inputs)
    : option (session * list call) :=
  match select_handler (current s) upd with
  | Some h =>
      let r := callback h upd i (user_data s) in
      Some ({| current := default (current s) (returned r); user_data := data r |},
            calls r)
  | None => None
  end.

(** [conversation_timeout=180]: the conversation ends; no handler is
    registered for the timeout, so nothing else changes. *)
Definition timeout (s : session) : session :=
  {| current := END; user_data := user_data s |}.

(** Before the first update: no conversation, nothing stored. *)
Definition initial : session := {| current := END; user_data := ∅ |}.

(** The sessions a conversation can be in: it starts from [initial], and
    moves by the updates it handles and by timing out.  An update none of
    its handlers takes goes to the other handlers of [main] (the admin
    conversation, [/help], [/about], [/support]), which leave the state and
    [context.user_data] alone. *)
Inductive reachable : session -> Prop :=
  | reachable_initial : reachable initial
  | reachable_update s upd i s' made :
      reachable s -> handle_update s upd i = Some (s', made) -> reachable s'
  | reachable_timeout s : reachable s -> reachable (timeout s).

(** What the conversation keeps true of [context.user_data]: a stored
    package is an entry of the catalog, a stored phone number is a string
    the normalizer returned. *)
Definition from_catalog (v : value) : Prop :=
  exists key p, v = VPackage p /\ dict_get data_packages key = Some p.

Definition normalized (v : value) : Prop :=
  exists phone formatted,
    v = VStr formatted /\ is_valid_phone_number phone = Some formatted.

Definition data_ok (ud : gmap string value) : Prop :=
  (forall v, ud !! "package" = Some v -> from_catalog v)
  /\ (forall v, ud !! "phone_number" = Some v -> normalized v).

(** ... and of the session: a package is stored while the phone number is
    asked for, a package and a phone number while the purchase is being
    confirmed. *)
Definition session_ok (s : session) : Prop :=
  data_ok (user_data s)
  /\ (current s = GETTING_PHONE -> is_Some (user_data s !! "package"))
  /\ (current s = CONFIRMING_PURCHASE ->
      is_Some (user_data s !! "package") /\ is_Some (user_data s !! "phone_number")).

(** A run of updates from a session, with the calls made along the way. *)
Fixpoint run (s : session) (trace : list (update * inputs)) : option (session * list call) :=
  match trace with
  | [] => Some (s, [])
  | (upd, i) :: rest =>
      match handle_update s upd i with
      | Some (s', made) =>
          match run s' rest with
          | Some (s'', made') => Some (s'', made ++ made')
          | None => None
          end
      | None => None
      end
  end.

End Engine.

(** ** Readings used to state the properties *)

(** The calls of a run that are requests to the gateway. *)
Definition posts (made : list call) : list call :=
  List.filter (fun c => match c with Post _ _ => true | _ => false end) made.

(** The readings of a reply the specification tells apart. *)
Definition http_success (status_code : Z) : Prop :=
  status_code = 200%Z \/ status_code = 201%Z.

Definition success_flag (items : list (ustr * json)) : Prop :=
  exists flag, dict_get items (u "success") = Some flag /\ truthy flag = true.

Definition status_SUCCESS (items : list (ustr * json)) : Prop :=
  dict_get items (u "status") = Some (JStr (u "SUCCESS")).

Definition malformed (body : option json) : Prop :=
  match body with
  | Some (JDict _) => False
  | _ => True
  end.

Definition reply_success (reply : gateway_reply) : Prop :=
  exists code items, reply = Response code (Some (JDict items))
    /\ http_success code /\ success_flag items /\ status_SUCCESS items.

Definition reply_pending (reply : gateway_reply) : Prop :=
  exists code items, reply = Response code (Some (JDict items))
    /\ http_success code /\ success_flag items /\ ~ status_SUCCESS items.

Definition reply_failed (reply : gateway_reply) : Prop :=
  exists code items, reply = Response code (Some (JDict items))
    /\ http_success code /\ ~ success_flag items.

Definition reply_error (reply : gateway_reply) : Prop :=
  reply = Raises
  \/ exists code body, reply = Response code body
       /\ (~ http_success code \/ malformed body).

(** The stored records with a given id. *)
Definition entries (uid : ustr) (users : list user_record) : list user_record :=
  List.filter (fun e => bool_decide (rec_id e = uid)) users.

(** What the update branch of [register_user] makes of an entry. *)
Definition refreshed (user : User) (now : ustr) (e : user_record) : user_record :=
  {| rec_id := rec_id e;
     rec_username := user_username user;
     rec_first_name := user_first_name user;
     rec_last_name := user_last_name user;
     rec_joined := rec_joined e;
     rec_last_active := now |}.

(** The [send_message] calls of a run: the chat and whether the call
    returned. *)
Definition sends (made : list call) : list (Z * bool) :=
  omap (fun c => match c with
                 | SendMessage chat_id _ ok => Some (chat_id, ok)
                 | _ => None
                 end) made.

(** The progress updates of a run: the count shown, the total shown and
    whether the edit returned. *)
Definition progress_updates (made : list call) : list (nat * nat * bool) :=
  omap (fun c => match c with
                 | EditText (Progress sent total) ok => Some (sent, total, ok)
                 | _ => None
                 end) made.

(** How many of the turns [i], ..., [i + n - 1] deliver. *)
Definition deliveries (delivered : nat -> bool) (i n : nat) : nat :=
  length (List.filter delivered (seq i n)).

(** The values of [sent_count] above [a], [d] of them, at which a
    progress update is due: the multiples of ten. *)
Definition due (a d : nat) : list nat :=
  List.filter (fun k => (k mod 10 =? 0)%nat) (seq (S a) d).

(** How many of these updates raise. *)
Definition failed_updates (edited : nat -> bool) (a d : nat) : nat :=
  length (List.filter (fun k => negb (edited k)) (due a d)).

(** A call of the loop: a message to a user, or a progress update. *)
Definition loop_call (body : ustr) (c : call) : Prop :=
  match c with
  | SendMessage _ b _ => b = body
  | EditText (Progress _ _) _ => True
  | _ => False
  end.

(** How many of the turns [i], ..., [i + n - 1] do not deliver. *)
Definition failures (delivered : nat -> bool) (i n : nat) : nat :=
  length (List.filter (fun j => negb (delivered j)) (seq i n)).

(** ** Scenarios *)

Definition alice : User :=
  {| user_id := 1001;
     user_username := Some (u "alice");
     user_first_name := u "Alice";
     user_last_name := None |}.

(** A reply of the gateway that accepts the request and leaves the payment
    to be completed on the phone. *)
Definition queued : gateway_reply :=
  Response 200 (Some (JDict [(u "success", JBool true); (u "status", JStr (u "QUEUED"))])).

(** The inputs of a run in which the transport hands out the messages
    [first], [first + 1], ... *)
Definition sample_inputs (first : message) : inputs :=
  {| effective_user := alice;
     replies := fun n => (first + n)%nat;
     deleted := true;
     timestamp := u "20240101120000";
     uuid4 := u "123e4567-e89b-12d3-a456-426614174000";
     gateway := queued |}.

(** [/start], the Bingwa menu, the first package, a phone number. *)
Definition purchase_trace : list (update * inputs) :=
  [ (Command (u "start"), sample_inputs 0);
    (CallbackQuery (u "bingwa_deals") 1, sample_inputs 2);
    (CallbackQuery (u "data_1") 2, sample_inputs 3);
    (TextMessage (u "0712345678"), sample_inputs 4) ].

Definition data_1 : DataPackage :=
  Build_DataPackage (u "1.25GB till midnight @ Ksh 55") 55
    (u "1.25GB") (u "Until midnight") (u "Same day data bundle").

(** The session [purchase_trace] leads to. *)
Definition confirming_session : session :=
  {| current := CONFIRMING_PURCHASE;
     user_data :=
       <["phone_number" := VStr (u "254712345678")]>
         (<["last_message" := VMessage 3]>
            (<["package_key" := VStr (u "data_1")]>
               (<["package" := VPackage data_1]> ∅))) |}.

(** A directory of 25 users, and a transport that fails for two of them. *)
Definition directory_25 : list user_record :=
  map (fun k => {| rec_id := py_str (Z.of_nat k);
                   rec_username := None;
                   rec_first_name := u "user";
                   rec_last_name := None;
                   rec_joined := u "2024-01-01T00:00:00";
                   rec_last_active := u "2024-01-01T00:00:00" |})
      (seq 1 25).

Definition two_blocked (i : nat) : bool := negb ((i =? 4)%nat || (i =? 19)%nat).

(** ** Tactics *)

(** Replaces the literals [u "..."] of the goal by their code points. *)
Ltac literals :=
  repeat match goal with
    | |- context [u ?s] =>
        let v := eval vm_compute in (u s) in change (u s) with v
    end.

Ltac unpack :=
  repeat match goal with
    | H : exists _, _ |- _ => destruct H
    | H : _ /\ _ |- _ => destruct H
    | H : _ \/ _ |- _ => destruct H
    | H : Some _ = Some _ |- _ => injection H as H
    end;
  simplify_eq/=.

(** ** Transaction references: the clock *)

(** What [datetime.datetime.now()] returns, to the second. *)
Record datetime : Type := {
  year : Z;
  month : Z;
  day : Z;
  hour : Z;
  minute : Z;
  second : Z
}.

(** A field [%m], [%d], [%H], [%M] or [%S] of [strftime]: two digits. *)
Definition two_digits (n : Z) : ustr :=
  if (n <? 10)%Z then u "0" ++ py_str n else py_str n.

(** [format_timestamp()], from what [datetime.datetime.now()] returns:
    [strftime("%Y%m%d%H%M%S")].  [%Y] is the year in decimal, which has four
    digits from the year 1000 on. *)
Definition format_timestamp (now : datetime) : ustr :=
  py_str (year now) ++ two_digits (month now) ++ two_digits (day now)
  ++ two_digits (hour now) ++ two_digits (minute now) ++ two_digits (second now).

(** The values [datetime] gives its fields, from the year 1000 on. *)
Definition on_calendar (now : datetime) : Prop :=
  (1000 <= year now <= 9999)%Z /\ (1 <= month now <= 12)%Z /\ (1 <= day now <= 31)%Z
  /\ (0 <= hour now <= 23)%Z /\ (0 <= minute now <= 59)%Z /\ (0 <= second now <= 59)%Z.

(** ** Admin panel *)

(** [ADMIN_USER_IDS]: [os.getenv('ADMIN_USER_IDS', '').split(',')]; [None]
    is a variable that is not set. *)
Definition ADMIN_USER_IDS (env : option ustr) : list ustr :=
  py_split 44%N (default [] env).

(** [is_admin(user_id)], for a given [ADMIN_USER_IDS]. *)
Definition is_admin (admin_ids : list ustr) (user_id : Z) : bool :=
  bool_decide (py_str user_id ∈ admin_ids).

(** The texts of the admin panel and of the commands outside the two
    conversations. *)
Inductive notice : Type :=
  | PermissionDenied
  | AdminPanel
  | AdminPanelClosed
  | BroadcastPrompt
  | BotStatistics (user_count : nat)
  | AdminOperationCancelled
  | HelpText
  | AboutText.

(** What a handler of the application does: a call of the purchase
    conversation or of the broadcast, or a [reply_text] with one of the
    texts above. *)
Inductive action : Type :=
  | Call (c : call)
  | ReplyNotice (t : notice).

(** [admin_command]: the state it returns and what it sends. *)
Definition admin_command (admin_ids : list ustr) (user : User) : state * list action :=
  if is_admin admin_ids (user_id user) then (ADMIN_COMMAND, [ReplyNotice AdminPanel])
  else (END, [ReplyNotice PermissionDenied]).

(** [admin_handle_choice], for the [callback_data] of the button and the
    content of the user file. *)
Definition admin_handle_choice (choice : ustr) (file : user_file) : state * list action :=
  if decide (choice = u "admin_exit") then
    (END, [Call Answer; ReplyNotice AdminPanelClosed])
  else if decide (choice = u "admin_broadcast") then
    (ADMIN_BROADCAST_MESSAGE, [Call Answer; ReplyNotice BroadcastPrompt])
  else if decide (choice = u "admin_stats") then
    (ADMIN_COMMAND,
     [Call Answer; ReplyNotice (BotStatistics (length (load_user_data file)))])
  else (ADMIN_COMMAND, [Call Answer]).

Definition admin_cancel : state * list action :=
  (END, [ReplyNotice AdminOperationCancelled]).

(** [help_command], [about_command] and [contact_support]: each registers
    the user and sends its text.  [contact_support] sends the text of the
    support button. *)
Definition help_command (user : User) : list action :=
  [Call (RegisterUser user); ReplyNotice HelpText].

Definition about_command (user : User) : list action :=
  [Call (RegisterUser user); ReplyNotice AboutText].

Definition contact_support (user : User) : list action :=
  [Call (RegisterUser user); Call (ReplyText SupportInfo)].

(** The [callback_data] of the buttons sent with a text, in the order of
    the rows of its [reply_markup]. *)
Definition reply_markup (t : text) : list ustr :=
  match t with
  | SelectCategoryWelcome | SelectCategory =>
      [u "bingwa_deals"; u "normal_deals"; u "support"; u "cancel_purchase"]
  | BingwaDeals keyboard | NormalDeals keyboard => map snd keyboard
  | PurchaseSummary _ _ => [u "confirm_purchase"; u "change_phone"; u "cancel_purchase"]
  | BroadcastCompleted => [u "admin_broadcast"; u "admin_exit"]
  | _ => []
  end.

Definition notice_markup (t : notice) : list ustr :=
  match t with
  | AdminPanel => [u "admin_broadcast"; u "admin_stats"; u "admin_exit"]
  | _ => []
  end.

Section Application.

Context {U : Unicode}.

(** *** The admin [ConversationHandler] of [main] *)

(** [^admin_]: [re.match] asks for the prefix only. *)
Definition admin_pattern : regex := RLit (u "admin_").

Inductive admin_handler : Type :=
  | admin_entry_handler
  | admin_choice_handler
  | admin_broadcast_handler
  | admin_cancel_handler
  | admin_restart_handler.

Definition admin_check_update (h : admin_handler) (upd : update) : bool :=
  match h, upd with
  | admin_entry_handler, Command name => bool_decide (name = u "admin")
  | admin_choice_handler, CallbackQuery d _ =>
      bool_decide (is_Some (re_match admin_pattern d))
  | admin_broadcast_handler, TextMessage _ => true
  | admin_cancel_handler, Command name => bool_decide (name = u "cancel")
  | admin_restart_handler, Command name => bool_decide (name = u "restart")
  | _, _ => false
  end.

Definition admin_entry_points : list admin_handler := [admin_entry_handler].

Definition admin_states (st : state) : list admin_handler :=
  match st with
  | ADMIN_COMMAND => [admin_choice_handler]
  | ADMIN_BROADCAST_MESSAGE => [admin_broadcast_handler; admin_cancel_handler]
  | _ => []
  end.

Definition admin_fallbacks : list admin_handler :=
  [admin_cancel_handler; admin_restart_handler].

Definition admin_select_handler (st : state) (upd : update) : option admin_handler :=
  match st with
  | END => List.find (fun h => admin_check_update h upd) admin_entry_points
  | _ => List.find (fun h => admin_check_update h upd) (admin_states st ++ admin_fallbacks)
  end.

(** What the handlers of the application read besides the update: the
    inputs of the purchase conversation, the content of the user file, and
    for a broadcast whether each [send_message] and each progress update
    returns. *)
Record environment : Type := {
  purchase_inputs : inputs;
  directory : user_file;
  delivered : nat -> bool;
  edited : nat -> bool
}.

(** What a run of a handler of the admin conversation leaves: the state it
    returned ([None] when it raised), [context.user_data], which only
    [restart_command] touches, and what it did.  [admin_broadcast] raises
    only in the first turn of its loop, after its first [reply_text]. *)
Definition admin_callback (admin_ids : list ustr) (h : admin_handler) (upd : update)
    (e : environment) (ud : gmap string value)
    : option state * gmap string value * list action :=
  match h, upd with
  | admin_entry_handler, _ =>
      let r := admin_command admin_ids (effective_user (purchase_inputs e)) in
      (Some (fst r), ud, snd r)
  | admin_choice_handler, CallbackQuery d _ =>
      let r := admin_handle_choice d (directory e) in
      (Some (fst r), ud, snd r)
  | admin_broadcast_handler, TextMessage body =>
      match admin_broadcast body (directory e) (delivered e) (edited e) with
      | Some (st, made) => (Some st, ud, map Call made)
      | None => (None, ud, [Call (ReplyText SendingBroadcast)])
      end
  | admin_cancel_handler, _ => (Some (fst admin_cancel), ud, snd admin_cancel)
  | admin_restart_handler, _ =>
      let r := restart_command (purchase_inputs e) ud in
      (returned r, data r, map Call (calls r))
  | _, _ => (None, ud, [])
  end.

(** *** The application of [main] *)

(** One user in one chat: the purchase conversation, with the user's
    [context.user_data], and the state of the admin conversation. *)
Record application : Type := {
  purchase : session;
  admin : state
}.

(** Before the first update. *)
Definition started : application := {| purchase := initial; admin := END |}.

(** The handlers [main] adds after the two conversations: [/help],
    [/about], [/support] and [/restart]. *)
Definition plain_command (name : ustr) (i : inputs) (ud : gmap string value)
    : option (gmap string value * list action) :=
  if decide (name = u "help") then Some (ud, help_command (effective_user i))
  else if decide (name = u "about") then Some (ud, about_command (effective_user i))
  else if decide (name = u "support") then Some (ud, contact_support (effective_user i))
  else if decide (name = u "restart") then
    let r := restart_command i ud in Some (data r, map Call (calls r))
  else None.

(** [application.process_update(update)]: the handlers are one group, asked
    in the order [main] added them; the first that takes the update handles
    it and the others do not see it.  A conversation takes an update when
    one of the handlers it has for its state does. *)
Definition process_update (admin_ids : list ustr) (a : application) (upd : update)
    (e : environment) : application * list action :=
  match handle_update (purchase a) upd (purchase_inputs e) with
  | Some (s', made) => ({| purchase := s'; admin := admin a |}, map Call made)
  | None =>
      match admin_select_handler (admin a) upd with
      | Some h =>
          let '(ret, ud', made) :=
            admin_callback admin_ids h upd e (user_data (purchase a)) in
          ({| purchase := {| current := current (purchase a); user_data := ud' |};
              admin := default (admin a) ret |},
           made)
      | None =>
          match upd with
          | Command name =>
              match plain_command name (purchase_inputs e) (user_data (purchase a)) with
              | Some (ud', made) =>
                  ({| purchase := {| current := current (purchase a); user_data := ud' |};
                      admin := admin a |},
                   made)
              | None => (a, [])
              end
          | _ => (a, [])
          end
      end
  end.

(** The application over a sequence of updates, with what it did. *)
Fixpoint serve (admin_ids : list ustr) (a : application)
    (trace : list (update * environment)) : application * list action :=
  match trace with
  | [] => (a, [])
  | (upd, e) :: rest =>
      let '(a', made) := process_update admin_ids a upd e in
      let '(a'', made') := serve admin_ids a' rest in
      (a'', made ++ made')
  end.

(** What the requests of a run carry: a price of the catalog and a phone
    number the normalizer returned, on channel 2486. *)
Definition request_ok (c : call) : Prop :=
  match c with
  | Post p _ =>
      (exists key pkg, dict_get data_packages key = Some pkg /\ amount p = price pkg)
      /\ (exists phone formatted,
            phone_number p = Some formatted
            /\ is_valid_phone_number phone = Some formatted)
      /\ channel_id p = 2486%Z
  | _ => True
  end.

(** Whether an update is a press of a confirmation button that is not
    change_phone. *)
Definition confirms (upd : update) : bool :=
  match upd with
  | CallbackQuery choice _ =>
      check_update confirm_handler upd && negb (bool_decide (choice = u "change_phone"))
  | _ => false
  end.

End Application.

(** ** More readings *)

(** What only the admin panel does: a message of a broadcast, the panel,
    the prompt for the broadcast text and the statistics. *)
Definition admin_action (a : action) : bool :=
  match a with
  | Call (SendMessage _ _ _) => true
  | ReplyNotice AdminPanel | ReplyNotice BroadcastPrompt
  | ReplyNotice (BotStatistics _) => true
  | _ => false
  end.

(** A character of a decimal numeral: a digit or the minus sign. *)
Definition numeral_char (c : N) : bool := ascii_digit c || (c =? 45)%N.



(** What the conversation keeps true of [context.user_data] beyond
    [data_ok]: the five keys the handlers write, each with the kind of value
    they store under it, and a package key that names the stored package. *)
Definition data_typed (ud : gmap string value) : Prop :=
  (forall key, is_Some (ud !! key) ->
     In key ["last_message"; "package"; "package_key"; "phone_number"; "reference"])
  /\ (forall v, ud !! "last_message" = Some v -> exists m, v = VMessage m)
  /\ (forall v, ud !! "reference" = Some v ->
        exists timestamp uuid4, v = VStr (generate_reference timestamp uuid4))
  /\ (is_Some (ud !! "package") <-> is_Some (ud !! "package_key"))
  /\ (forall v, ud !! "package_key" = Some v ->
        exists key p, v = VStr key /\ ud !! "package" = Some (VPackage p)
                      /\ dict_get data_packages key = Some p).

(** ** More scenarios *)

Definition new_year : datetime :=
  {| year := 2024; month := 1; day := 1; hour := 12; minute := 0; second := 0 |}.

(** A session that waits for a phone number, the first package chosen. *)
Definition phone_entry_session : session :=
  {| current := GETTING_PHONE;
     user_data :=
       <["last_message" := VMessage 3]>
         (<["package_key" := VStr (u "data_1")]>
            (<["package" := VPackage data_1]> ∅)) |}.

(** The surroundings of a run of the application: the inputs of
    [sample_inputs], the directory of 25 users and a transport that
    delivers. *)
Definition sample_environment (first : message) : environment :=
  {| purchase_inputs := sample_inputs first;
     directory := Some directory_25;
     delivered := fun _ => true;
     edited := fun _ => true |}.

(** Alice starts a purchase, chooses a package, opens the admin panel and
    asks for a broadcast, then types its text. *)
Definition admin_trace : list (update * environment) :=
  [ (Command (u "start"), sample_environment 0);
    (CallbackQuery (u "bingwa_deals") 1, sample_environment 2);
    (CallbackQuery (u "data_1") 2, sample_environment 3);
    (Command (u "admin"), sample_environment 4);
    (CallbackQuery (u "admin_broadcast") 4, sample_environment 5);
    (TextMessage (u "Offers this week"), sample_environment 6) ].



(** ** More tactics *)

(** Opens the handlers of the purchase conversation. *)
Ltac open_handlers :=
  unfold callback, start, restart_command, show_bundles, choose_package,
    show_bingwa_deals, show_normal_deals, show_deals, back_to_categories,
    handle_support_button, cancel_purchase, get_phone_number,
    handle_confirmation, after.

(** The handlers a state lists, one by one. *)
Ltac each_handler Hin :=
  simpl in Hin; repeat (destruct Hin as [<-|Hin]); try destruct Hin.

(** * Properties *)

(** ** Python strings *)

Lemma to_bytes_u s : to_bytes (u s) = Some s.
Proof.
  induction s as [|a s IH]; simpl; [done|].
  assert ((N_of_ascii a <? 256)%N = true) as ->.
  { apply N.ltb_lt, N_ascii_bounded. }
  by rewrite IH, ascii_N_embedding.
Qed.

Lemma u_inj s t : u s = u t -> s = t.
Proof.
  intros H. apply (f_equal to_bytes) in H. rewrite !to_bytes_u in H. congruence.
Qed.

(** [int] reads back what [str] wrote. *)
Lemma py_int_py_str n : py_int (py_str n) = Some n.
Proof.
  unfold py_int, py_str. rewrite to_bytes_u, NilZero.isi.
  - simpl. f_equal. apply DecimalZ.of_to.
  - destruct n; simpl; [done|intros [=]|done].
    by eapply DecimalPos.Unsigned.to_uint_nonnil.
  - destruct n; simpl; [done|done|intros [=]].
    by eapply DecimalPos.Unsigned.to_uint_nonnil.
Qed.

Lemma py_str_inj m n : py_str m = py_str n -> m = n.
Proof.
  intros H. apply (f_equal py_int) in H. rewrite !py_int_py_str in H. congruence.
Qed.

Section EngineFacts.

Context {U : Unicode}.

(** ** The matcher *)

Lemma strip_prefix_inv l s s' : strip_prefix l s = Some s' -> s = l ++ s'.
Proof.
  revert s. induction l as [|a l IH]; intros [|c s]; simpl; try congruence.
  destruct (N.eqb_spec a c); [|discriminate].
  intros H. apply IH in H. congruence.
Qed.

Lemma strip_prefix_app l s : strip_prefix l (l ++ s) = Some s.
Proof.
  induction l as [|a l IH]; simpl; [by destruct s|].
  by rewrite N.eqb_refl.
Qed.

(** Whatever the matcher returns comes from a match of the pattern on which
    the continuation succeeded. *)
Lemma rmatch_sound r : forall s g k a,
  rmatch r s g k = Some a ->
  exists s' g', matches r s s' g g' /\ k s' g' = Some a.
Proof.
  induction r as [l| | |r1 IH1 r2 IH2|r1 IH1 r2 IH2|r1 IH1|n r1 IH1|r1 IH1|];
    intros s g k a H; simpl in H.
  - destruct (strip_prefix l s) as [s'|] eqn:E; [|discriminate].
    apply strip_prefix_inv in E. by exists s', g.
  - destruct s as [|c s']; [discriminate|].
    destruct (is_digit c) eqn:E; [|discriminate].
    exists s', g. split; [by exists c|done].
  - revert H. induction s as [|c s' IHs]; intros H; [discriminate|].
    destruct (is_digit c) eqn:E; [|discriminate].
    match type of H with
    | match ?m with _ => _ end = _ => destruct m as [b|] eqn:Em
    end.
    + injection H as ->. destruct (IHs eq_refl) as (s2 & g2 & (ds & ? & ? & -> & ->) & Hk).
      exists s2, g. split; [|done].
      exists (c :: ds). split_and!; [done| |done|done].
      simpl. by rewrite E.
    + exists s', g. split; [|done].
      exists [c]. split_and!; [done| |done|done].
      simpl. by rewrite E.
  - apply IH1 in H as (s1 & g1 & H1 & H).
    apply IH2 in H as (s2 & g2 & H2 & H).
    exists s2, g2. split; [by exists s1, g1|done].
  - destruct (rmatch r1 s g k) as [b|] eqn:E.
    + injection H as ->. apply IH1 in E as (s' & g' & ? & ?).
      exists s', g'. split; [by left|done].
    + apply IH2 in H as (s' & g' & ? & ?).
      exists s', g'. split; [by right|done].
  - destruct (rmatch r1 s g k) as [b|] eqn:E.
    + injection H as ->. apply IH1 in E as (s' & g' & ? & ?).
      exists s', g'. split; [by left|done].
    + exists s, g. split; [by right|done].
  - revert s g H. induction n as [|n IHn]; intros s g H.
    + by exists s, g.
    + apply IH1 in H as (s1 & g1 & H1 & H).
      apply IHn in H as (s' & g' & Hrep & Hk).
      exists s', g'. split; [|done]. by exists s1, g1.
  - apply IH1 in H as (s' & g0 & H1 & Hk).
    eexists s', _. split; [|exact Hk]. by exists g0.
  - destruct s as [|c [|? ?]].
    + by exists [], g; repeat split; [left|].
    + destruct (decide (c = 10%N)) as [->|Hc].
      * by exists [10%N], g; repeat split; [right|].
      * assert (None = Some a) by (revert H; clear -Hc;
          destruct c as [|p]; [done|]; do 4 (destruct p; try done)); done.
    + destruct c as [|p]; [done|]. by do 4 (destruct p; try done).
Qed.

(** ** The phone normalizer *)

Lemma remove_separators_spec phone c :
  In c (remove_separators phone) <-> In c phone /\ is_separator c = false.
Proof.
  unfold remove_separators. rewrite filter_In.
  destruct (is_separator c); simpl; intuition congruence.
Qed.

Lemma remove_separators_id t :
  (forall c, In c t -> is_separator c = false) -> remove_separators t = t.
Proof.
  unfold remove_separators. induction t as [|c t IH]; intros H; simpl; [done|].
  rewrite (H c) by (by left). simpl. f_equal. apply IH.
  intros d Hd. apply H. by right.
Qed.

Lemma remove_separators_idemp phone :
  remove_separators (remove_separators phone) = remove_separators phone.
Proof.
  apply remove_separators_id. intros c Hc.
  by apply remove_separators_spec in Hc as [_ ?].
Qed.

Lemma newline_removed phone : ~ In 10%N (remove_separators phone).
Proof. intros H. by apply remove_separators_spec in H as [_ ?]. Qed.

(** The shape of a subscriber number, spelled out. *)
Lemma is_subscriber_inv s :
  is_subscriber s = true ->
  exists lead d1 d2 d3 d4 d5 d6 d7 d8,
    s = [lead; d1; d2; d3; d4; d5; d6; d7; d8]
    /\ (lead = 55%N \/ lead = 49%N)
    /\ Forall (fun d => is_digit d = true) [d1; d2; d3; d4; d5; d6; d7; d8].
Proof.
  destruct s as [|lead ds]; [done|]. simpl.
  rewrite !andb_true_iff, orb_true_iff, !N.eqb_eq, Nat.eqb_eq, forallb_forall.
  intros [[Hlead Hlen] Hds].
  do 8 (destruct ds as [|? ds]; [done|]). destruct ds; [|done].
  eexists _, _, _, _, _, _, _, _, _. split; [done|]. split; [done|].
  apply List.Forall_forall. exact Hds.
Qed.

(** A pattern of [patterns] matches only the ways of writing a subscriber
    number, and its group is that number. *)
Lemma re_match_patterns_inv p t g :
  In p patterns -> ~ In 10%N t -> re_match p t = Some g ->
  exists s, is_subscriber s = true /\ g = Some s /\ accepted_variant s t.
Proof.
  unfold patterns, accepted_variant. intros Hp Hnl H.
  apply rmatch_sound in H as (s' & g' & H & Hg).
  simpl in Hp. destruct Hp as [<-|[<-|[<-|[<-|[]]]]];
    simpl in H; unpack;
    try (exfalso; apply Hnl; simpl; tauto);
    (eexists; split_and!; [|reflexivity|];
      [simpl; by repeat match goal with H : is_digit _ = true |- _ => rewrite H; clear H end
      |simpl; tauto]).
Qed.

(** Every way of writing a subscriber number is matched, and gives the
    number after [254]. *)
Lemma first_match_variant s t :
  is_subscriber s = true -> accepted_variant s t ->
  first_match patterns t = Some (u "254" ++ s).
Proof.
  intros Hs Ht. apply is_subscriber_inv in Hs.
  destruct Hs as (lead & d1 & d2 & d3 & d4 & d5 & d6 & d7 & d8 & -> & Hlead & Hds).
  repeat match goal with
    | H : Forall _ (_ :: _) |- _ => apply Forall_cons in H as [? H]
    end.
  unfold patterns, country_code, subscriber_group.
  destruct Hlead as [-> | ->];
    destruct Ht as [-> | [-> | [-> | ->]]];
    literals; cbn -[is_digit];
    repeat match goal with H : is_digit _ = true |- _ => rewrite H; clear H end;
    reflexivity.
Qed.

Lemma first_match_inv ps t out :
  (forall p, In p ps -> In p patterns) -> ~ In 10%N t ->
  first_match ps t = Some out ->
  exists s, is_subscriber s = true /\ out = u "254" ++ s /\ accepted_variant s t.
Proof.
  intros Hps Hnl. induction ps as [|p ps IH]; simpl; [done|].
  destruct (re_match p t) as [g|] eqn:E.
  - intros [= <-].
    apply re_match_patterns_inv in E as (s & ? & -> & ?); [|apply Hps; by left|done].
    by exists s.
  - apply IH. intros q Hq. apply Hps. by right.
Qed.

(** What the normalizer accepts and what it returns. *)
Lemma is_valid_phone_number_spec phone out :
  is_valid_phone_number phone = Some out <->
  exists s, is_subscriber s = true
            /\ accepted_variant s (remove_separators phone)
            /\ out = u "254" ++ s.
Proof.
  unfold is_valid_phone_number. split.
  - intros H. apply first_match_inv in H as (s & ? & ? & ?);
      [by exists s|done|apply newline_removed].
  - intros (s & Hs & Ht & ->). by apply first_match_variant.
Qed.

(** The digits of a number that was accepted are no separators. *)
Lemma variant_no_separator s t c :
  accepted_variant s (remove_separators t) -> In c s -> is_separator c = false.
Proof.
  intros Hv Hc.
  assert (In c (remove_separators t)) as Hin.
  { destruct Hv as [-> | [-> | [-> | ->]]]; simpl; tauto. }
  by apply remove_separators_spec in Hin as [_ ?].
Qed.

Lemma canonical_fixed s t :
  is_subscriber s = true -> accepted_variant s (remove_separators t) ->
  is_valid_phone_number (u "254" ++ s) = Some (u "254" ++ s).
Proof.
  intros Hs Hv. apply is_valid_phone_number_spec. exists s.
  split; [done|]. split; [|done].
  rewrite remove_separators_id; [right; right; by left|].
  intros c [<- | [<- | [<- | Hc]]]; [done..|].
  by eapply variant_no_separator.
Qed.

(** Separators do not count: an input and the input without them are
    treated alike. *)
Lemma normalizer_ignores_separators phone :
  is_valid_phone_number (remove_separators phone) = is_valid_phone_number phone.
Proof. unfold is_valid_phone_number. by rewrite remove_separators_idemp. Qed.

(** C5.  For every subscriber number (7 or 1, then eight digits) and every
    input that, separators removed, is the number bare, with a leading
    zero, with 254 or with +254, the normalizer returns 254 followed by the
    number, and returns that same string again when given it; and whatever
    the normalizer returns is of this form (twelve digits starting with
    254) and is returned unchanged when normalized again. *)
Theorem normalizer_canonical_idempotent :
  (forall s phone,
     is_subscriber s = true -> accepted_variant s (remove_separators phone) ->
     is_valid_phone_number phone = Some (u "254" ++ s)
     /\ is_valid_phone_number (u "254" ++ s) = Some (u "254" ++ s))
  /\ (forall phone out,
        is_valid_phone_number phone = Some out ->
        (exists s, is_subscriber s = true /\ out = u "254" ++ s)
        /\ length out = 12%nat
        /\ forallb is_digit out = true
        /\ is_valid_phone_number out = Some out).
Proof.
  split.
  - intros s phone Hs Hv. split.
    + apply is_valid_phone_number_spec. by exists s.
    + by eapply canonical_fixed.
  - intros phone out H.
    apply is_valid_phone_number_spec in H as (s & Hs & Hv & ->).
    split; [by exists s|].
    pose proof (canonical_fixed _ _ Hs Hv) as Hfix.
    apply is_subscriber_inv in Hs
      as (lead & d1 & d2 & d3 & d4 & d5 & d6 & d7 & d8 & -> & Hlead & Hds).
    split; [done|]. split; [|done].
    repeat match goal with
      | H : Forall _ (_ :: _) |- _ => apply Forall_cons in H as [? H]
      end.
    literals. cbn -[is_digit].
    repeat match goal with H : is_digit _ = true |- _ => rewrite H; clear H end.
    by destruct Hlead as [-> | ->].
Qed.

(** ** The conversation *)

Lemma data_ok_empty : data_ok ∅.
Proof. split; intros v H; by rewrite lookup_empty in H. Qed.

Lemma data_ok_insert_other key v ud :
  key <> "package" -> key <> "phone_number" ->
  data_ok ud -> data_ok (<[key := v]> ud).
Proof.
  intros ? ? [Hp Hn]. split; intros w; rewrite lookup_insert_ne by done; auto.
Qed.

Lemma data_ok_insert_package key p ud :
  dict_get data_packages key = Some p ->
  data_ok ud -> data_ok (<["package" := VPackage p]> ud).
Proof.
  intros Hk [Hp Hn]. split; intros w.
  - rewrite lookup_insert_eq. intros [= <-]. by exists key, p.
  - rewrite lookup_insert_ne by done. auto.
Qed.

Lemma data_ok_insert_phone phone formatted ud :
  is_valid_phone_number phone = Some formatted ->
  data_ok ud -> data_ok (<["phone_number" := VStr formatted]> ud).
Proof.
  intros Hk [Hp Hn]. split; intros w.
  - rewrite lookup_insert_ne by done. auto.
  - rewrite lookup_insert_eq. intros [= <-]. by exists phone, formatted.
Qed.

(** The handler that takes an update is one the state lists, and it
    accepts the update. *)
Lemma select_handler_inv st upd h :
  select_handler st upd = Some h ->
  check_update h upd = true
  /\ In h (match st with END => entry_points | _ => states st ++ fallbacks end).
Proof.
  unfold select_handler.
  destruct st; intros H; apply find_some in H as [? ?]; done.
Qed.

(** Handling an update keeps the session as [session_ok] says. *)
Lemma handle_update_ok s upd i s' made :
  session_ok s -> handle_update s upd i = Some (s', made) -> session_ok s'.
Proof.
  destruct s as [st ud]. unfold handle_update. simpl.
  intros (Hd & Hg & Hc) H.
  destruct (select_handler st upd) as [h|] eqn:Hsel; [|done].
  injection H as <- <-.
  apply select_handler_inv in Hsel as [Hchk Hin].
  destruct st; simpl in Hin; intuition subst; destruct upd; try discriminate Hchk;
    unfold callback, start, restart_command, show_bundles, choose_package,
      show_bingwa_deals, show_normal_deals, show_deals, back_to_categories,
      handle_support_button, cancel_purchase, get_phone_number,
      handle_confirmation, after;
    repeat first [case_decide | case_match]; simpl;
    unfold session_ok; simpl; split_and?;
    try done; try (intros; discriminate);
    repeat (apply data_ok_insert_other; [done..|]);
    try (eapply data_ok_insert_package; [eassumption|]);
    try (eapply data_ok_insert_phone; [eassumption|]);
    try apply data_ok_empty;
    try done;
    intros _; split_and?;
    repeat (rewrite lookup_insert_ne by done);
    rewrite ?lookup_insert_eq; eauto.
Qed.

Lemma reachable_ok s : reachable s -> session_ok s.
Proof.
  induction 1 as [|s upd i s' made _ IH Hstep|s _ IH].
  - split; [apply data_ok_empty|]. by split.
  - by eapply handle_update_ok.
  - destruct IH as [? _]. by split.
Qed.

Lemma run_reachable trace : forall s s' made,
  reachable s -> run s trace = Some (s', made) -> reachable s'.
Proof.
  induction trace as [|[upd i] rest IH]; intros s s' made Hs; simpl.
  - by intros [= <- _].
  - destruct (handle_update s upd i) as [[s1 made1]|] eqn:E; [|done].
    destruct (run s1 rest) as [[s2 made2]|] eqn:E'; [|done].
    intros [= <- _]. eapply IH; [|exact E']. by eapply reachable_update.
Qed.

(** The conversation takes every [/restart] itself, so the [restart_command]
    registered with the admin conversation and with the application is never
    reached. *)
Lemma restart_always_taken st :
  select_handler st (Command (u "restart")) = Some restart_handler.
Proof. destruct st; by vm_compute. Qed.

(** The conversation enters CONFIRMING_PURCHASE by an accepted phone
    number only, with a package stored, and stores the number on the way. *)
Lemma confirming_entered_by_phone s upd i s' made :
  handle_update s upd i = Some (s', made) ->
  current s' = CONFIRMING_PURCHASE ->
  current s = CONFIRMING_PURCHASE
  \/ exists body formatted p,
       upd = TextMessage body
       /\ is_valid_phone_number (py_strip body) = Some formatted
       /\ user_data s !! "package" = Some (VPackage p)
       /\ user_data s' = <["phone_number" := VStr formatted]> (user_data s).
Proof.
  destruct s as [st ud]. unfold handle_update. simpl.
  destruct (select_handler st upd) as [h|] eqn:Hsel; [|done].
  intros [= <- <-]. simpl. intros Hst.
  apply select_handler_inv in Hsel as [Hchk Hin].
  destruct st; simpl in Hin; intuition subst; destruct upd; try discriminate Hchk;
    try (by left);
    revert Hst;
    unfold callback, start, restart_command, show_bundles, choose_package,
      show_bingwa_deals, show_normal_deals, show_deals, back_to_categories,
      handle_support_button, cancel_purchase, get_phone_number,
      handle_confirmation, after;
    repeat first [case_decide | case_match]; simpl; try done;
    intros _; right; eauto 10.
Qed.

(** C10.  In every session the conversation can reach, the state
    CONFIRMING_PURCHASE comes with a stored package that is an entry of
    the catalog and a stored phone number that the normalizer returned, so
    [handle_confirmation] finds both and does not raise. *)
Theorem confirming_has_package_and_phone s :
  reachable s -> current s = CONFIRMING_PURCHASE ->
  (exists key p, user_data s !! "package" = Some (VPackage p)
                 /\ dict_get data_packages key = Some p)
  /\ (exists phone formatted,
        user_data s !! "phone_number" = Some (VStr formatted)
        /\ is_valid_phone_number phone = Some formatted)
  /\ (forall i choice origin,
        returned (handle_confirmation i choice origin (user_data s)) <> None).
Proof.
  intros Hs Hst. apply reachable_ok in Hs as ((Hp & Hn) & _ & Hc).
  destruct (Hc Hst) as [[v Hv] [w Hw]].
  destruct (Hp v Hv) as (key & p & -> & Hkey).
  destruct (Hn w Hw) as (phone & formatted & -> & Hvalid).
  split; [by exists key, p|]. split; [by exists phone, formatted|].
  intros i choice origin. unfold handle_confirmation. rewrite Hv.
  by case_decide.
Qed.

(** C1.  In a reachable session in CONFIRMING_PURCHASE, pressing
    confirm_purchase makes, whatever the gateway replies, exactly these
    calls: the answer, the deletion of the summary, the confirmation text,
    one request to the gateway and the text for its reply.  The request
    carries the price of the stored package, the stored normalized phone
    number and the reference generated in this run; the conversation ends
    (END), the reference being the only thing stored. *)
Theorem confirm_purchase_charges_once s i origin :
  reachable s -> current s = CONFIRMING_PURCHASE ->
  exists p formatted phone made,
    user_data s !! "package" = Some (VPackage p)
    /\ user_data s !! "phone_number" = Some (VStr formatted)
    /\ is_valid_phone_number phone = Some formatted
    /\ let reference := generate_reference (timestamp i) (uuid4 i) in
       let request :=
         Post {| amount := price p;
                 phone_number := Some formatted;
                 channel_id := 2486;
                 provider := u "m-pesa";
                 external_reference := reference;
                 callback_url := u "emmkash" |} (gateway i) in
       handle_update s (CallbackQuery (u "confirm_purchase") origin) i
       = Some ({| current := END;
                  user_data := <["reference" := VStr reference]> (user_data s) |},
               made)
       /\ made = [ Answer; Delete origin (deleted i);
                   ReplyText (PurchaseConfirmed p (Some (VStr formatted)) reference);
                   request;
                   ReplyText (stk_push_text (gateway i) (effective_user i) reference) ]
       /\ posts made = [request]
       /\ is_Some (outcome_of (stk_push_text (gateway i) (effective_user i) reference)).
Proof.
  intros Hs Hst. apply reachable_ok in Hs as ((Hp & Hn) & _ & Hc).
  destruct (Hc Hst) as [[v Hv] [w Hw]].
  destruct (Hp v Hv) as (key & p & -> & Hkey).
  destruct (Hn w Hw) as (phone & formatted & -> & Hvalid).
  destruct s as [st ud]. simpl in *. subst st.
  eexists p, formatted, phone, _. split_and!; [done..| | reflexivity | reflexivity |].
  - unfold handle_update. simpl current.
    replace (select_handler CONFIRMING_PURCHASE
               (CallbackQuery (u "confirm_purchase") origin))
      with (Some confirm_handler) by (by vm_compute).
    simpl. unfold handle_confirmation. rewrite Hv, Hw.
    rewrite decide_False by (by vm_compute). reflexivity.
  - unfold stk_push_text.
    repeat first [case_bool_decide | case_match]; simpl; eauto.
Qed.

(** C3, as the code has it.  In each of CHOOSING_PACKAGE, GETTING_PHONE
    and CONFIRMING_PURCHASE, pressing cancel_purchase ends the conversation
    (END) and sends the cancellation text after answering the button press;
    [context.user_data] is left exactly as it was. *)
Theorem cancel_purchase_ends_and_keeps_data ud i origin :
  Forall
    (fun st =>
       handle_update {| current := st; user_data := ud |}
         (CallbackQuery (u "cancel_purchase") origin) i
       = Some ({| current := END; user_data := ud |},
               [Answer; ReplyText Cancelled]))
    [CHOOSING_PACKAGE; GETTING_PHONE; CONFIRMING_PURCHASE].
Proof.
  assert (forall st, In st [CHOOSING_PACKAGE; GETTING_PHONE; CONFIRMING_PURCHASE] ->
            select_handler st (CallbackQuery (u "cancel_purchase") origin)
            = Some cancel_handler) as Hsel.
  { intros st [<-|[<-|[<-|[]]]]; by vm_compute. }
  apply List.Forall_forall. intros st Hst.
  unfold handle_update. simpl current. by rewrite (Hsel st Hst).
Qed.

(** C4, as the code has it.  In CONFIRMING_PURCHASE, pressing
    change_phone takes the conversation back to GETTING_PHONE; the only key
    of [context.user_data] written is last_message, which takes the prompt
    just sent: the stored package and the stored phone number, like every
    other key, keep their values. *)
Theorem change_phone_returns_to_phone_entry ud i origin :
  exists ud',
    handle_update {| current := CONFIRMING_PURCHASE; user_data := ud |}
      (CallbackQuery (u "change_phone") origin) i
    = Some ({| current := GETTING_PHONE; user_data := ud' |},
            [Answer; Delete origin (deleted i); ReplyText EnterDifferentPhone])
    /\ ud' !! "last_message" = Some (VMessage (replies i 0))
    /\ ud' !! "package" = ud !! "package"
    /\ ud' !! "phone_number" = ud !! "phone_number"
    /\ (forall key, key <> "last_message" -> ud' !! key = ud !! key).
Proof.
  exists (<["last_message" := VMessage (replies i 0)]> ud). split_and!.
  - unfold handle_update. simpl current.
    by replace (select_handler CONFIRMING_PURCHASE
                  (CallbackQuery (u "change_phone") origin))
      with (Some confirm_handler) by (by vm_compute).
  - apply lookup_insert_eq.
  - by apply lookup_insert_ne.
  - by apply lookup_insert_ne.
  - intros key Hkey. by apply lookup_insert_ne.
Qed.

(** C6.  In GETTING_PHONE, a text the normalizer rejects is answered by
    the invalid-number prompt, after the guarded deletion of the last bot
    message; the conversation stays in GETTING_PHONE, [context.user_data]
    is unchanged, in particular the stored package, and no request goes to
    the gateway. *)
Theorem rejected_phone_reprompts ud i body :
  is_valid_phone_number (py_strip body) = None ->
  exists made,
    handle_update {| current := GETTING_PHONE; user_data := ud |} (TextMessage body) i
    = Some ({| current := GETTING_PHONE; user_data := ud |}, made)
    /\ made = delete_last_message i ud ++ [ReplyText InvalidPhone]
    /\ posts made = [].
Proof.
  intros Hbad. eexists. split_and!; [|reflexivity|].
  - unfold handle_update. simpl. unfold get_phone_number. by rewrite Hbad.
  - unfold delete_last_message. by repeat case_match.
Qed.

End EngineFacts.

(** ** The catalog *)

(** What a comprehension of the two menus keeps: the items whose number
    passes the test. *)
Lemma select_packages_spec keep items : forall chosen,
  select_packages keep items = Some chosen ->
  forall kv, In kv chosen <->
             In kv items /\ exists n, key_number (fst kv) = Some n /\ keep n = true.
Proof.
  induction items as [|[k v] rest IH]; simpl; intros chosen H kv.
  - injection H as <-. simpl. tauto.
  - destruct (key_number k) as [n|] eqn:En; [|done].
    destruct (select_packages keep rest) as [tl|] eqn:Etl; [|done].
    injection H as <-. specialize (IH tl eq_refl kv).
    destruct (keep n) eqn:Ek; simpl; rewrite IH; split.
    + intros [<-|[? ?]]; [|tauto]. split; [by left|]. by exists n.
    + intros [[<-|?] ?]; [by left|tauto].
    + tauto.
    + intros [[<-|?] (m & Hm & ?)]; [|by eauto]. simpl in Hm. congruence.
Qed.

(** Two comprehensions with opposite tests share the items out. *)
Lemma select_packages_split keep keep' items : forall a b,
  (forall n, keep' n = negb (keep n)) ->
  select_packages keep items = Some a ->
  select_packages keep' items = Some b ->
  a ++ b ≡ₚ items.
Proof.
  induction items as [|[k v] rest IH]; simpl; intros a b Hopp Ha Hb.
  - by injection Ha as <-; injection Hb as <-.
  - destruct (key_number k) as [n|]; [|done].
    destruct (select_packages keep rest) as [ta|]; [|done].
    destruct (select_packages keep' rest) as [tb|]; [|done].
    injection Ha as <-; injection Hb as <-.
    specialize (IH ta tb Hopp eq_refl eq_refl).
    rewrite Hopp. destruct (keep n); simpl.
    + by rewrite IH.
    + by rewrite <- Permutation_middle, IH.
Qed.

(** C9.  The two comprehensions run through on the catalog; every offer
    id of the catalog is in exactly one of the two menus, no id is in both,
    the ids of the two menus together are the ids of the catalog, and the
    items of the two menus are the items of the catalog, each once.  An
    item is in the Bingwa menu exactly when the number after the underscore
    of its id is at most 8, in the Normal menu exactly when it is above 8. *)
Theorem category_partition :
  exists bingwa normal,
    bingwa_packages = Some bingwa /\ normal_packages = Some normal
    /\ (forall k, In k (map fst data_packages) ->
          (In k (map fst bingwa) /\ ~ In k (map fst normal))
          \/ (~ In k (map fst bingwa) /\ In k (map fst normal)))
    /\ (forall k, ~ (In k (map fst bingwa) /\ In k (map fst normal)))
    /\ (forall k, In k (map fst bingwa) \/ In k (map fst normal)
                  <-> In k (map fst data_packages))
    /\ bingwa ++ normal ≡ₚ data_packages
    /\ (forall kv, In kv bingwa <->
          In kv data_packages /\ exists n, key_number (fst kv) = Some n /\ (n <= 8)%Z)
    /\ (forall kv, In kv normal <->
          In kv data_packages /\ exists n, key_number (fst kv) = Some n /\ (n > 8)%Z).
Proof.
  destruct bingwa_packages as [bingwa|] eqn:Eb; [|by vm_compute in Eb].
  destruct normal_packages as [normal|] eqn:En; [|by vm_compute in En].
  exists bingwa, normal.
  pose proof (select_packages_spec _ _ _ Eb) as Hb.
  pose proof (select_packages_spec _ _ _ En) as Hn.
  assert (forall k, In k (map fst bingwa) -> In k (map fst normal) -> False) as Hdisj.
  { intros k (kv & <- & Hkb)%in_map_iff (kv' & Hk & Hkn)%in_map_iff.
    apply Hb in Hkb as (_ & n & Hn1 & ?%Z.leb_le).
    apply Hn in Hkn as (_ & m & Hn2 & ?%Z.gtb_lt).
    rewrite Hk in Hn2. assert (n = m) by congruence. lia. }
  assert (bingwa ++ normal ≡ₚ data_packages) as Hperm.
  { apply (select_packages_split (fun n => n <=? 8)%Z (fun n => n >? 8)%Z);
      [|exact Eb|exact En].
    intros n. simpl. rewrite Z.gtb_ltb. apply Z.ltb_antisym. }
  assert (forall k, In k (map fst bingwa) \/ In k (map fst normal)
                    <-> In k (map fst data_packages)) as Hunion.
  { intros k. rewrite <- in_app_iff, <- map_app.
    split; apply Permutation_in; [|symmetry]; by apply Permutation_map. }
  split_and!; [done|done| | |done|done| |].
  - intros k [Hk|Hk]%Hunion; [left|right]; split; try done;
      intros Hk'; by apply (Hdisj k).
  - intros k [? ?]. by apply (Hdisj k).
  - intros kv. rewrite Hb. by setoid_rewrite Z.leb_le.
  - intros kv. rewrite Hn. by setoid_rewrite Z.gtb_gt.
Qed.

(** ** The payment orchestrator *)

Lemma is_SUCCESS_spec items :
  is_SUCCESS (dict_get items (u "status")) = true <-> status_SUCCESS items.
Proof.
  unfold status_SUCCESS, is_SUCCESS.
  destruct (dict_get items (u "status")) as [[]|]; try (split; intros; done || congruence).
  case_bool_decide; split; intros; try done; congruence.
Qed.

Lemma success_flag_spec items :
  from_option truthy false (dict_get items (u "success")) = true <-> success_flag items.
Proof.
  unfold success_flag. destruct (dict_get items (u "success")) as [flag|]; simpl.
  - split; [by exists flag|]. by intros (? & [= <-] & ?).
  - split; [done|]. by intros (? & ? & ?).
Qed.

Section Outcome.
Variables (user : User) (reference : ustr).

Lemma reply_success_outcome reply :
  reply_success reply ->
  outcome_of (stk_push_text reply user reference) = Some Success.
Proof.
  intros (code & items & -> & Hcode & Hflag & Hst).
  cbn -[from_option truthy dict_get is_SUCCESS u bool_decide].
  rewrite bool_decide_eq_true_2 by done.
  apply success_flag_spec in Hflag as ->. by apply is_SUCCESS_spec in Hst as ->.
Qed.

Lemma reply_pending_outcome reply :
  reply_pending reply ->
  outcome_of (stk_push_text reply user reference) = Some Pending.
Proof.
  intros (code & items & -> & Hcode & Hflag & Hst).
  cbn -[from_option truthy dict_get is_SUCCESS u bool_decide].
  rewrite bool_decide_eq_true_2 by done.
  apply success_flag_spec in Hflag as ->.
  destruct (is_SUCCESS _) eqn:E; [|done]. by apply is_SUCCESS_spec in E.
Qed.

Lemma reply_failed_outcome reply :
  reply_failed reply ->
  outcome_of (stk_push_text reply user reference) = Some Failed.
Proof.
  intros (code & items & -> & Hcode & Hflag).
  cbn -[from_option truthy dict_get is_SUCCESS u bool_decide].
  rewrite bool_decide_eq_true_2 by done.
  destruct (from_option _ _ _) eqn:E; [|done]. by apply success_flag_spec in E.
Qed.

Lemma reply_error_outcome reply :
  reply_error reply ->
  outcome_of (stk_push_text reply user reference) = Some Error.
Proof.
  intros [-> | (code & body & -> & [Hcode | Hbody])];
    cbn -[from_option truthy dict_get is_SUCCESS u bool_decide]; [done| |].
  - by rewrite bool_decide_eq_false_2.
  - case_bool_decide; [|done]. by destruct body as [[]|].
Qed.

(** Every reply has one of the four readings. *)
Lemma reply_cases reply :
  reply_success reply \/ reply_pending reply \/ reply_failed reply \/ reply_error reply.
Proof.
  destruct reply as [|code body]; [right; right; right; by left|].
  destruct (decide (code = 200%Z \/ code = 201%Z)) as [Hcode|Hcode];
    [|right; right; right; right; exists code, body; by split; [|left]].
  destruct body as [j|];
    [|right; right; right; right; exists code, None; by split; [|right]].
  destruct j as [| | | | | |items];
    try (right; right; right; right; eexists code, _; by split; [|right]).
  destruct (from_option truthy false (dict_get items (u "success"))) eqn:Ef.
  - apply success_flag_spec in Ef.
    destruct (is_SUCCESS (dict_get items (u "status"))) eqn:Es.
    + apply is_SUCCESS_spec in Es. left. by exists code, items.
    + right; left. exists code, items. split_and!; [done..|].
      intros Hs%is_SUCCESS_spec. congruence.
  - right; right; left. exists code, items. split_and!; [done..|].
    intros Hs%success_flag_spec. congruence.
Qed.

End Outcome.

(** C2.  The text [initiate_stk_push] sends reports one of the four
    outcomes for every reply of the gateway: Success exactly when the status
    code is 200 or 201, the body is a JSON object whose success entry is
    truthy and whose status entry is "SUCCESS"; Pending exactly when the
    success entry is truthy and the status entry is anything else or
    missing; Failed exactly when the success entry is missing or falsy;
    Error exactly when the call raised, the status code is another one, or
    the body is no JSON object. *)
Theorem stk_push_outcome reply user reference :
  let t := stk_push_text reply user reference in
  (exists o, outcome_of t = Some o)
  /\ (outcome_of t = Some Success <-> reply_success reply)
  /\ (outcome_of t = Some Pending <-> reply_pending reply)
  /\ (outcome_of t = Some Failed <-> reply_failed reply)
  /\ (outcome_of t = Some Error <-> reply_error reply).
Proof.
  simpl.
  pose proof (reply_success_outcome user reference reply) as HS.
  pose proof (reply_pending_outcome user reference reply) as HP.
  pose proof (reply_failed_outcome user reference reply) as HF.
  pose proof (reply_error_outcome user reference reply) as HE.
  destruct (reply_cases reply) as [H|[H|[H|H]]];
    [specialize (HS H)|specialize (HP H)|specialize (HF H)|specialize (HE H)];
    (split; [by eexists|]);
    repeat split; try done;
    intros H'; rewrite H' in *; (done || (exfalso; auto; congruence)).
Qed.

(** ** The user directory *)

Lemma entries_app uid l1 l2 : entries uid (l1 ++ l2) = entries uid l1 ++ entries uid l2.
Proof. apply List.filter_app. Qed.

Lemma entries_absent uid users :
  ~ In uid (map rec_id users) -> entries uid users = [].
Proof.
  induction users as [|e users IH]; simpl; [done|].
  intros H. case_bool_decide; [destruct H; by left|].
  apply IH. intros ?. destruct H. by right.
Qed.

Lemma update_existing_absent uid user now users :
  ~ In uid (map rec_id users) -> update_existing uid user now users = None.
Proof.
  induction users as [|e users IH]; simpl; [done|].
  intros H. case_decide; [destruct H; by left|].
  rewrite IH; [done|]. intros ?. destruct H. by right.
Qed.

Lemma update_existing_found uid user now pre e post :
  ~ In uid (map rec_id pre) -> rec_id e = uid ->
  update_existing uid user now (pre ++ e :: post)
  = Some (pre ++ refreshed user now e :: post).
Proof.
  intros Hpre He. induction pre as [|x pre IH]; simpl.
  - by case_decide.
  - simpl in Hpre. case_decide; [destruct Hpre; by left|].
    rewrite IH; [done|]. intros ?. destruct Hpre. by right.
Qed.

(** A directory either has no entry with the id, or splits around the first. *)
Lemma directory_cases uid users :
  ~ In uid (map rec_id users)
  \/ exists pre e post, users = pre ++ e :: post
       /\ ~ In uid (map rec_id pre) /\ rec_id e = uid.
Proof.
  induction users as [|x users IH]; [left; by intros []|].
  destruct (decide (rec_id x = uid)) as [Hx|Hx].
  - right. exists [], x, users. split_and!; [done|by intros []|done].
  - destruct IH as [IH|(pre & e & post & -> & Hpre & He)].
    + left. simpl. by intros [?|?].
    + right. exists (x :: pre), e, post. simpl. split_and!; [done| |done].
      by intros [?|?].
Qed.

Lemma NoDup_split_absent uid pre (e : user_record) post :
  NoDup (map rec_id (pre ++ e :: post)) -> rec_id e = uid ->
  ~ In uid (map rec_id pre) /\ ~ In uid (map rec_id post).
Proof.
  rewrite map_app. simpl. intros H <-.
  apply NoDup_ListNoDup, List.NoDup_remove_2 in H.
  rewrite in_app_iff in H. tauto.
Qed.

(** [register_user] keeps the ids of the directory pairwise distinct. *)
Lemma register_user_NoDup user clock written file :
  NoDup (map rec_id (load_user_data file)) ->
  NoDup (map rec_id (load_user_data (register_user user clock written file))).
Proof.
  intros Hnd. unfold register_user, save_user_data.
  destruct written; [|by repeat case_match].
  set (uid := py_str (user_id user)).
  destruct (directory_cases uid (load_user_data file))
    as [Habs|(pre & e & post & Heq & Hpre & He)].
  - rewrite update_existing_absent by done. simpl.
    rewrite map_app. simpl. apply NoDup_ListNoDup.
    apply List.NoDup_app; [by apply NoDup_ListNoDup| |].
    + repeat constructor. by intros [].
    + intros x Hx [<-|[]]. done.
  - rewrite Heq, update_existing_found by done. simpl.
    rewrite Heq in Hnd. by rewrite map_app in *.
Qed.

(** [register_user] keeps the ids of the directory numerals: [int] reads
    every stored id. *)
Lemma register_user_numeric user clock written file ids :
  map (fun e => py_int (rec_id e)) (load_user_data file) = map Some ids ->
  exists ids',
    map (fun e => py_int (rec_id e))
      (load_user_data (register_user user clock written file))
    = map Some ids'.
Proof.
  intros Hids. unfold register_user, save_user_data.
  destruct written; [|exists ids; by repeat case_match].
  set (uid := py_str (user_id user)).
  destruct (directory_cases uid (load_user_data file))
    as [Habs|(pre & e & post & Heq & Hpre & He)].
  - rewrite update_existing_absent by done. simpl.
    exists (ids ++ [user_id user]).
    rewrite !map_app, Hids. simpl. unfold uid. by rewrite py_int_py_str.
  - rewrite Heq, update_existing_found by done. simpl.
    exists ids. rewrite <- Hids, Heq, !map_app. done.
Qed.

Lemma entries_single uid pre (e : user_record) post :
  ~ In uid (map rec_id pre) -> ~ In uid (map rec_id post) -> rec_id e = uid ->
  entries uid (pre ++ e :: post) = [e].
Proof.
  intros Hpre Hpost He.
  change (pre ++ e :: post) with (pre ++ [e] ++ post).
  rewrite !entries_app, (entries_absent uid pre), (entries_absent uid post) by done.
  unfold entries. simpl. by rewrite bool_decide_eq_true_2.
Qed.

(** What one registration does to a directory with distinct ids: the user
    has exactly one entry afterwards, a new one stamped by the clock or
    the old one refreshed, and the entries of other ids are as before. *)
Lemma register_user_spec user clock file :
  NoDup (map rec_id (load_user_data file)) ->
  let uid := py_str (user_id user) in
  let users := load_user_data file in
  exists users' e,
    register_user user clock true file = Some users'
    /\ entries uid users' = [e]
    /\ ((entries uid users = []
         /\ e = {| rec_id := uid;
                   rec_username := user_username user;
                   rec_first_name := user_first_name user;
                   rec_last_name := user_last_name user;
                   rec_joined := clock 0%nat;
                   rec_last_active := clock 1%nat |}
         /\ users' = users ++ [e])
        \/ (exists e0, entries uid users = [e0]
              /\ e = refreshed user (clock 0%nat) e0
              /\ length users' = length users))
    /\ (forall other, other <> uid -> entries other users' = entries other users).
Proof.
  intros Hnd uid users. unfold register_user, save_user_data. fold uid users.
  destruct (directory_cases uid users) as [Habs|(pre & e & post & Heq & Hpre & He)].
  - rewrite update_existing_absent by done.
    eexists _, _. split; [done|]. split_and!.
    + rewrite entries_app, entries_absent by done. simpl.
      by rewrite bool_decide_eq_true_2.
    + left. by rewrite entries_absent.
    + intros other Hother. rewrite entries_app. simpl.
      rewrite bool_decide_eq_false_2 by done. apply app_nil_r.
  - rewrite Heq, update_existing_found by done.
    fold users in Hnd. rewrite Heq in Hnd.
    destruct (NoDup_split_absent uid pre e post Hnd He) as [_ Hpost].
    eexists _, _. split; [done|]. split_and!.
    + by apply entries_single.
    + right. exists e. split_and!; [by apply entries_single|done|].
      by rewrite !length_app.
    + intros other Hother. rewrite !entries_app. f_equal. simpl.
      rewrite He. by rewrite !bool_decide_eq_false_2.
Qed.

(** C7.  In a directory whose ids are pairwise distinct, registering one
    user id twice, with whatever names, leaves exactly one record with that
    id: it carries the names of the second registration and the time of the
    second registration as last_active, and its joined time is the one the
    record had after the first registration (the time of that registration
    when the id was new to the directory); no record is added by the second
    registration and the records of other ids stay as they were.  Two users
    with different ids are stored under different ids, each in a record of
    its own. *)
Theorem register_user_upsert :
  (forall file u1 u2 clock1 clock2,
     NoDup (map rec_id (load_user_data file)) ->
     user_id u1 = user_id u2 ->
     let uid := py_str (user_id u1) in
     exists users1 users2 e1,
       register_user u1 clock1 true file = Some users1
       /\ register_user u2 clock2 true (Some users1) = Some users2
       /\ entries uid users1 = [e1]
       /\ entries uid users2
          = [ {| rec_id := uid;
                 rec_username := user_username u2;
                 rec_first_name := user_first_name u2;
                 rec_last_name := user_last_name u2;
                 rec_joined := rec_joined e1;
                 rec_last_active := clock2 0%nat |} ]
       /\ (entries uid (load_user_data file) = [] -> rec_joined e1 = clock1 0%nat)
       /\ (forall e0, entries uid (load_user_data file) = [e0] ->
             rec_joined e1 = rec_joined e0)
       /\ length users2 = length users1
       /\ (forall other, other <> uid -> entries other users2 = entries other users1)
       /\ NoDup (map rec_id users2))
  /\ (forall file u u' clock clock',
        NoDup (map rec_id (load_user_data file)) ->
        user_id u <> user_id u' ->
        py_str (user_id u) <> py_str (user_id u')
        /\ exists users e e',
             register_user u' clock' true (register_user u clock true file) = Some users
             /\ entries (py_str (user_id u)) users = [e]
             /\ entries (py_str (user_id u')) users = [e']
             /\ rec_id e = py_str (user_id u)
             /\ rec_id e' = py_str (user_id u')
             /\ e <> e').
Proof.
  split.
  - intros file u1 u2 clock1 clock2 Hnd Hid uid.
    destruct (register_user_spec u1 clock1 file Hnd)
      as (users1 & e1 & Hreg1 & Hent1 & Hcase1 & Hoth1).
    fold uid in Hent1, Hcase1, Hoth1.
    pose proof (register_user_NoDup u1 clock1 true file Hnd) as Hnd1.
    rewrite Hreg1 in Hnd1.
    destruct (register_user_spec u2 clock2 (Some users1) Hnd1)
      as (users2 & e2 & Hreg2 & Hent2 & Hcase2 & Hoth2).
    rewrite <- Hid in Hent2, Hcase2, Hoth2. fold uid in Hent2, Hcase2, Hoth2.
    simpl in Hcase2, Hoth2.
    pose proof (register_user_NoDup u2 clock2 true (Some users1) Hnd1) as Hnd2.
    rewrite Hreg2 in Hnd2.
    destruct Hcase2 as [(Hnone & _)|(e1' & Hent1' & -> & Hlen)]; [congruence|].
    assert (e1' = e1) as -> by congruence.
    assert (rec_id e1 = uid) as Hid1.
    { assert (In e1 (entries uid users1)) as Hin by (rewrite Hent1; by left).
      apply filter_In in Hin as [_ Hin]. by apply bool_decide_eq_true in Hin. }
    exists users1, users2, e1. split_and!; try done.
    + rewrite Hent2. unfold refreshed. by rewrite Hid1.
    + intros Hnone. destruct Hcase1 as [(_ & -> & _)|(e0 & He0 & _)]; [done|congruence].
    + intros e0 He0. destruct Hcase1 as [(Hnone & _)|(e0' & He0' & -> & _)];
        [congruence|]. simpl. congruence.
  - intros file u u' clock clock' Hnd Hid.
    assert (py_str (user_id u) <> py_str (user_id u')) as Hne
      by (intros ?%py_str_inj; done).
    split; [done|].
    destruct (register_user_spec u clock file Hnd)
      as (users1 & e & Hreg1 & Hent1 & _ & _).
    pose proof (register_user_NoDup u clock true file Hnd) as Hnd1.
    rewrite Hreg1 in *.
    destruct (register_user_spec u' clock' (Some users1) Hnd1)
      as (users2 & e' & Hreg2 & Hent2 & _ & Hoth2).
    simpl in Hoth2.
    assert (forall uid users x, entries uid users = [x] -> rec_id x = uid) as Hrec.
    { intros uid users x Hx.
      assert (In x (entries uid users)) as Hin by (rewrite Hx; by left).
      apply filter_In in Hin as [_ Hin]. by apply bool_decide_eq_true in Hin. }
    exists users2, e, e'. split_and!; try done.
    + by rewrite Hoth2.
    + by eapply Hrec.
    + by eapply Hrec.
    + intros ->. apply Hne. by rewrite <- (Hrec _ _ _ Hent1), <- (Hrec _ _ _ Hent2).
Qed.

(** ** The admin broadcast *)

#[local] Arguments Nat.modulo : simpl never.

Lemma deliveries_S delivered i n :
  deliveries delivered i (S n)
  = ((if delivered i then 1 else 0) + deliveries delivered (S i) n)%nat.
Proof. unfold deliveries. simpl. destruct (delivered i); reflexivity. Qed.

Lemma due_S a d :
  due a (S d) = (if (S a mod 10 =? 0)%nat then [S a] else []) ++ due (S a) d.
Proof.
  unfold due. simpl seq. simpl List.filter. destruct (S a mod 10 =? 0)%nat; reflexivity.
Qed.

Lemma failed_updates_S edited a d :
  failed_updates edited a (S d)
  = ((if (S a mod 10 =? 0)%nat then if edited (S a) then 0 else 1 else 0)
     + failed_updates edited (S a) d)%nat.
Proof.
  unfold failed_updates. rewrite due_S.
  destruct (S a mod 10 =? 0)%nat; simpl; [|done]. destruct (edited (S a)); reflexivity.
Qed.

Lemma sends_app a b : sends (a ++ b) = sends a ++ sends b.
Proof. apply omap_app. Qed.

Lemma progress_updates_app a b :
  progress_updates (a ++ b) = progress_updates a ++ progress_updates b.
Proof. apply omap_app. Qed.

(** The loop, from any turn on: it runs through, asks the transport once
    for each entry, in order, whatever the earlier calls did, and keeps its
    two counters as the calls went. *)
Lemma broadcast_loop_spec delivered edited body total users :
  forall ids i t,
  map (fun e => py_int (rec_id e)) users = map Some ids ->
  let d := deliveries delivered i (length users) in
  exists t' added,
    broadcast_loop delivered edited body total i users t = Some t'
    /\ sent_count t' = (sent_count t + d)%nat
    /\ failed_count t'
       = (failed_count t + (length users - d)
          + failed_updates edited (sent_count t) d)%nat
    /\ calls_made t' = calls_made t ++ added
    /\ sends added = zip ids (map delivered (seq i (length users)))
    /\ progress_updates added
       = map (fun k => (k, total, edited k)) (due (sent_count t) d)
    /\ Forall (loop_call body) added.
Proof.
  induction users as [|e users IH]; intros ids i t Hids d.
  - exists t, []. subst d. unfold deliveries, failed_updates, due. simpl.
    rewrite app_nil_r. split_and!; try done; try lia. by destruct ids.
  - destruct ids as [|uid ids]; [done|]. injection Hids as He Hids.
    subst d. simpl broadcast_loop. unfold broadcast_turn. rewrite He.
    simpl length. rewrite deliveries_S.
    set (sent := sent_count t). set (failed := failed_count t).
    destruct (delivered i) eqn:Hd.
    + destruct (S sent mod 10 =? 0)%nat eqn:Hdue; [destruct (edited (S sent)) eqn:Hed|];
        cbv beta iota zeta; simpl count_failure; cbv beta iota;
        match goal with
        | |- context [broadcast_loop _ _ _ _ _ _ ?t1] =>
            destruct (IH ids (S i) t1 Hids) as (t' & added & Hloop & Hs & Hf & Hc & Hsd & Hp & Hall)
        end;
        simpl in Hs, Hf, Hc, Hp;
        exists t';
        match type of Hc with
        | _ = ((_ ++ ?a1) ++ ?a2) ++ _ => exists (a1 ++ a2 ++ added)
        | _ = (_ ++ ?a1) ++ _ => exists (a1 ++ added)
        end;
        (split; [exact Hloop|]);
        rewrite failed_updates_S, due_S, Hdue, ?Hed;
        rewrite ?sends_app, ?progress_updates_app, Hsd, Hp;
        simpl; rewrite Hd, ?Hed;
        (split_and!; [lia|lia|by rewrite Hc, <- ?app_assoc|done|done|]);
        repeat (apply Forall_cons; split; [done|]); done.
    + cbv beta iota zeta. simpl count_failure. cbv beta iota.
      match goal with
      | |- context [broadcast_loop _ _ _ _ _ _ ?t1] =>
          destruct (IH ids (S i) t1 Hids) as (t' & added & Hloop & Hs & Hf & Hc & Hsd & Hp & Hall)
      end.
      simpl in Hs, Hf, Hc, Hp.
      exists t', ([SendMessage uid body false] ++ added).
      split; [exact Hloop|].
      rewrite ?sends_app, ?progress_updates_app, Hsd, Hp. simpl. rewrite Hd.
      split_and!; [lia| |by rewrite Hc, <- ?app_assoc|done|done|].
      * pose proof (List.filter_length_le delivered (seq (S i) (length users))) as Hle.
        rewrite length_seq in Hle. unfold deliveries in *. lia.
      * by apply Forall_cons.
Qed.

Lemma deliveries_failures delivered i n :
  (deliveries delivered i n + failures delivered i n = n)%nat.
Proof.
  unfold deliveries, failures. revert i.
  induction n as [|n IH]; intros i; simpl; [done|].
  specialize (IH (S i)). destruct (delivered i); simpl; lia.
Qed.

Lemma failed_updates_none edited a d :
  (forall k, edited k = true) -> failed_updates edited a d = 0%nat.
Proof.
  intros Hed. unfold failed_updates.
  induction (due a d) as [|k l IH]; simpl; [done|]. by rewrite Hed.
Qed.

(** C8.  A broadcast over a directory that is not empty and whose ids are
    numerals makes one [send_message] call per entry, in the order of the
    directory and to the chat the entry names, whether or not earlier calls
    returned; apart from these the loop only makes progress updates, one
    each time the number sent reaches a multiple of ten; the run ends with
    the summary, which shows the number of calls that returned as sent and,
    as failed, the number of calls that raised plus the number of progress
    updates that raised.  When the progress updates go through, sent and
    failed add up to the number of entries, and 25 entries with 2 failed
    deliveries give 23 sent and 2 failed. *)
Theorem broadcast_attempts_every_user message_text file delivered edited ids :
  let users := load_user_data file in
  let n := length users in
  let sent := deliveries delivered 0 n in
  let failed := (failures delivered 0 n + failed_updates edited 0 sent)%nat in
  py_lower message_text <> u "/cancel" ->
  users <> [] ->
  map (fun e => py_int (rec_id e)) users = map Some ids ->
  exists added,
    admin_broadcast message_text file delivered edited
    = Some (ADMIN_COMMAND,
            [ReplyText SendingBroadcast] ++ added
            ++ [EditText (BroadcastComplete sent failed) true;
                ReplyText BroadcastCompleted])
    /\ Forall (loop_call (broadcast_text message_text)) added
    /\ sends added = zip ids (map delivered (seq 0 n))
    /\ length (sends added) = n
    /\ progress_updates added = map (fun k => (k, n, edited k)) (due 0 sent)
    /\ ((forall k, edited k = true) ->
        failed = failures delivered 0 n /\ (sent + failed = n)%nat
        /\ (n = 25%nat -> failures delivered 0 n = 2%nat ->
            sent = 23%nat /\ failed = 2%nat)).
Proof.
  intros users n sent failed Hcancel Hne Hids.
  destruct (broadcast_loop_spec delivered edited (broadcast_text message_text)
              n users ids 0%nat
              {| sent_count := 0; failed_count := 0; bound_user_id := None;
                 calls_made := [ReplyText SendingBroadcast] |} Hids)
    as (t' & added & Hloop & Hs & Hf & Hc & Hsd & Hp & Hall).
  simpl in Hs, Hf, Hc, Hp. fold n in Hs, Hf, Hp, Hsd. fold sent in Hs, Hf, Hp.
  pose proof (deliveries_failures delivered 0 n) as Hsum. fold sent in Hsum.
  exists added. split_and!; try done.
  - unfold admin_broadcast. rewrite decide_False by done.
    fold users n.
    assert (forall (B : Type) (x y : B),
              match users with [] => x | _ :: _ => y end = y) as ->
      by (intros; by destruct users).
    rewrite Hloop, Hc, Hs, Hf.
    replace (n - sent + failed_updates edited 0 sent)%nat with failed
      by (unfold failed; lia).
    reflexivity.
  - rewrite Hsd, length_zip, length_map, length_seq.
    assert (length ids = n) as ->; [|lia].
    apply (f_equal length) in Hids. by rewrite !length_map in Hids.
  - intros Hed. unfold failed. rewrite failed_updates_none by done.
    split_and!; [lia|lia|]. intros Hn Hfail. lia.
Qed.

(** ** The properties at work *)

Example phone_national :
  is_valid_phone_number (U := unicode14) (u "0712345678") = Some (u "254712345678").
Proof. vm_compute. reflexivity. Qed.

Example phone_full_width_digits :
  is_valid_phone_number (U := unicode14)
    (u "07" ++ [0xFF11; 0xFF12; 0xFF13; 0xFF14; 0xFF15; 0xFF16; 0xFF17; 0xFF18]%N)
  = Some (u "2547" ++ [0xFF11; 0xFF12; 0xFF13; 0xFF14; 0xFF15; 0xFF16; 0xFF17; 0xFF18]%N).
Proof. vm_compute. reflexivity. Qed.

Example phone_too_short :
  is_valid_phone_number (U := unicode14) (u "25471234567") = None.
Proof. vm_compute. reflexivity. Qed.

Example bingwa_menu : bingwa_packages = Some (take 8 data_packages).
Proof. vm_compute. reflexivity. Qed.

Example normal_menu : normal_packages = Some (drop 8 data_packages).
Proof. vm_compute. reflexivity. Qed.

Example confirm_button_taken :
  select_handler (U := unicode14) CONFIRMING_PURCHASE
    (CallbackQuery (u "confirm_purchase") 4)
  = Some confirm_handler.
Proof. vm_compute. reflexivity. Qed.

Example start_ignored_while_confirming :
  select_handler (U := unicode14) CONFIRMING_PURCHASE (Command (u "start")) = None.
Proof. vm_compute. reflexivity. Qed.

Lemma purchase_trace_runs :
  exists made, run (U := unicode14) initial purchase_trace = Some (confirming_session, made).
Proof. eexists. vm_compute. reflexivity. Qed.

Lemma confirming_session_reachable : reachable (U := unicode14) confirming_session.
Proof.
  destruct purchase_trace_runs as [made Hrun].
  eapply run_reachable; [apply reachable_initial|exact Hrun].
Qed.

(** The three ways of writing 0712 345 678, and the canonical string. *)
Lemma normalizer_witness :
  is_valid_phone_number (U := unicode14) (u "0712 345-678") = Some (u "254712345678")
  /\ is_valid_phone_number (U := unicode14) (u "254712345678") = Some (u "254712345678").
Proof.
  apply (proj1 (normalizer_canonical_idempotent (U := unicode14))
           (u "712345678") (u "0712 345-678")).
  - vm_compute. reflexivity.
  - right. left. vm_compute. reflexivity.
Defined.

Lemma confirming_witness :
  (exists key p, user_data confirming_session !! "package" = Some (VPackage p)
                 /\ dict_get data_packages key = Some p)
  /\ (exists phone formatted,
        user_data confirming_session !! "phone_number" = Some (VStr formatted)
        /\ is_valid_phone_number (U := unicode14) phone = Some formatted)
  /\ (forall i choice origin,
        returned (handle_confirmation i choice origin (user_data confirming_session))
        <> None).
Proof.
  apply (confirming_has_package_and_phone (U := unicode14) confirming_session).
  - exact confirming_session_reachable.
  - reflexivity.
Defined.

Lemma confirm_purchase_witness :
  exists s' made,
    handle_update (U := unicode14) confirming_session
      (CallbackQuery (u "confirm_purchase") 4) (sample_inputs 5)
    = Some (s', made)
    /\ current s' = END
    /\ posts made
       = [ Post {| amount := 55;
                   phone_number := Some (u "254712345678");
                   channel_id := 2486;
                   provider := u "m-pesa";
                   external_reference := u "BINGWA-20240101120000-123e4567";
                   callback_url := u "emmkash" |} queued ].
Proof.
  destruct (confirm_purchase_charges_once (U := unicode14) confirming_session
              (sample_inputs 5) 4 confirming_session_reachable eq_refl)
    as (p & formatted & phone & made & Hp & Hf & _ & Hstep & _ & Hposts & _).
  eexists _, made. split; [exact Hstep|]. split; [reflexivity|].
  rewrite Hposts. vm_compute in Hp, Hf.
  injection Hp as <-. injection Hf as <-. vm_compute. reflexivity.
Defined.

Lemma rejected_phone_witness :
  exists made,
    handle_update (U := unicode14)
      {| current := GETTING_PHONE; user_data := user_data confirming_session |}
      (TextMessage (u "abc123")) (sample_inputs 5)
    = Some ({| current := GETTING_PHONE; user_data := user_data confirming_session |},
            made)
    /\ made = delete_last_message (sample_inputs 5) (user_data confirming_session)
              ++ [ReplyText InvalidPhone]
    /\ posts made = [].
Proof.
  apply (rejected_phone_reprompts (U := unicode14)).
  vm_compute. reflexivity.
Defined.

(** C3, as stated, fails: cancelling in CONFIRMING_PURCHASE ends the
    conversation and leaves the package and the phone number stored. *)
Lemma cancel_purchase_keeps_session_data :
  reachable (U := unicode14) confirming_session
  /\ handle_update (U := unicode14) confirming_session
       (CallbackQuery (u "cancel_purchase") 4) (sample_inputs 5)
     = Some ({| current := END; user_data := user_data confirming_session |},
             [Answer; ReplyText Cancelled])
  /\ user_data confirming_session !! "package" = Some (VPackage data_1)
  /\ user_data confirming_session !! "phone_number" = Some (VStr (u "254712345678"))
  /\ user_data confirming_session <> ∅.
Proof.
  split; [exact confirming_session_reachable|].
  split; [vm_compute; reflexivity|].
  split; [vm_compute; reflexivity|].
  split; [vm_compute; reflexivity|].
  intros H. apply (f_equal (fun m => m !! "package")) in H.
  vm_compute in H. discriminate H.
Qed.

(** C4, as stated, fails: change_phone leaves the phone number stored and
    writes last_message. *)
Lemma change_phone_keeps_phone_number :
  exists s',
    handle_update (U := unicode14) confirming_session
      (CallbackQuery (u "change_phone") 4) (sample_inputs 5)
    = Some (s', [Answer; Delete 4 true; ReplyText EnterDifferentPhone])
    /\ current s' = GETTING_PHONE
    /\ user_data s' !! "phone_number" = Some (VStr (u "254712345678"))
    /\ user_data confirming_session !! "last_message" = Some (VMessage 3)
    /\ user_data s' !! "last_message" = Some (VMessage 5).
Proof.
  eexists. split; [vm_compute; reflexivity|].
  repeat split; vm_compute; reflexivity.
Qed.

Lemma upsert_witness :
  exists users1 users2 e1,
    register_user alice (fun _ => u "2024-01-01T10:00:00") true None = Some users1
    /\ register_user
         {| user_id := 1001; user_username := None;
            user_first_name := u "Alicia"; user_last_name := Some (u "K") |}
         (fun _ => u "2024-02-02T10:00:00") true (Some users1)
       = Some users2
    /\ entries (py_str 1001) users1 = [e1]
    /\ entries (py_str 1001) users2
       = [ {| rec_id := py_str 1001;
              rec_username := None;
              rec_first_name := u "Alicia";
              rec_last_name := Some (u "K");
              rec_joined := rec_joined e1;
              rec_last_active := u "2024-02-02T10:00:00" |} ]
    /\ rec_joined e1 = u "2024-01-01T10:00:00"
    /\ length users2 = 1%nat.
Proof.
  destruct (proj1 register_user_upsert None alice
              {| user_id := 1001; user_username := None;
                 user_first_name := u "Alicia"; user_last_name := Some (u "K") |}
              (fun _ => u "2024-01-01T10:00:00") (fun _ => u "2024-02-02T10:00:00")
              (NoDup_nil_2 : NoDup (map rec_id (load_user_data None))) eq_refl)
    as (users1 & users2 & e1 & H1 & H2 & He1 & He2 & Hnew & _ & Hlen & _).
  exists users1, users2, e1. split_and!; try done.
  - by apply Hnew.
  - rewrite Hlen. vm_compute in H1. by injection H1 as <-.
Defined.

Lemma broadcast_witness :
  exists added,
    admin_broadcast (u "Offers this week") (Some directory_25) two_blocked (fun _ => true)
    = Some (ADMIN_COMMAND,
            [ReplyText SendingBroadcast] ++ added
            ++ [EditText (BroadcastComplete 23 2) true; ReplyText BroadcastCompleted])
    /\ length (sends added) = 25%nat
    /\ map fst (sends added) = map Z.of_nat (seq 1 25)
    /\ progress_updates added = [(10, 25, true); (20, 25, true)]%nat.
Proof.
  destruct (broadcast_attempts_every_user (u "Offers this week") (Some directory_25)
              two_blocked (fun _ => true) (map Z.of_nat (seq 1 25)))
    as (added & Hrun & _ & Hsends & Hlen & Hprog & _).
  - vm_compute. discriminate.
  - vm_compute. discriminate.
  - vm_compute. reflexivity.
  - exists added. split_and!.
    + exact Hrun.
    + exact Hlen.
    + rewrite Hsends. vm_compute. reflexivity.
    + rewrite Hprog. vm_compute. reflexivity.
Defined.

(** * Further properties *)

(** ** The catalog and the calls of a run *)

Lemma dict_get_In {V : Type} (d : list (ustr * V)) key v :
  dict_get d key = Some v -> In (key, v) d.
Proof.
  induction d as [|[k w] d IH]; simpl; [done|].
  case_decide; [intros [= <-]; subst; by left|]. intros Hd. right. by apply IH.
Qed.

(** The keys of the catalog, spelled out. *)
Lemma catalog_keys key p :
  dict_get data_packages key = Some p ->
  In key [u "data_1"; u "data_2"; u "data_3"; u "data_4"; u "data_5"; u "data_6";
          u "data_7"; u "data_8"; u "data_9"; u "data_10"; u "data_11"].
Proof.
  intros H. apply dict_get_In in H.
  apply (in_map fst) in H. exact H.
Qed.

Lemma posts_app a b : posts (a ++ b) = posts a ++ posts b.
Proof. apply List.filter_app. Qed.

Lemma posts_initiate_stk_push phone amount reference user reply :
  length (posts (initiate_stk_push phone amount reference user reply)) <= 1.
Proof. unfold initiate_stk_push. repeat case_match; simpl; lia. Qed.

Section ConversationFacts.

Context {U : Unicode}.

(** ** More on the phone normalizer *)

Lemma remove_separators_app s t :
  remove_separators (s ++ t) = remove_separators s ++ remove_separators t.
Proof. apply List.filter_app. Qed.

Lemma remove_separators_rev s : remove_separators (rev s) = rev (remove_separators s).
Proof.
  induction s as [|c s IH]; simpl; [done|].
  rewrite remove_separators_app, IH. simpl.
  destruct (is_separator c); simpl; [by rewrite app_nil_r|done].
Qed.

Lemma remove_separators_lstrip s : remove_separators (py_lstrip s) = remove_separators s.
Proof.
  induction s as [|c s IH]; simpl; [done|].
  destruct (is_space c) eqn:E; [|done].
  unfold is_separator. rewrite E. simpl. exact IH.
Qed.

Lemma remove_separators_strip s : remove_separators (py_strip s) = remove_separators s.
Proof.
  unfold py_strip.
  rewrite remove_separators_rev, remove_separators_lstrip, remove_separators_rev,
    rev_involutive.
  apply remove_separators_lstrip.
Qed.

(** X1.  The normalizer accepts an input exactly when, separators removed,
    it is a subscriber number (7 or 1, then eight digits) written bare,
    with a leading zero, with 254 or with +254, and then returns 254
    followed by that number; it returns [None] exactly when the input is
    none of these ways of writing any subscriber number. *)
Theorem normalizer_accepts_exactly phone :
  (forall out,
     is_valid_phone_number phone = Some out <->
     exists s, is_subscriber s = true
               /\ accepted_variant s (remove_separators phone)
               /\ out = u "254" ++ s)
  /\ (is_valid_phone_number phone = None <->
      forall s, is_subscriber s = true -> ~ accepted_variant s (remove_separators phone)).
Proof.
  split; [intros out; apply is_valid_phone_number_spec|].
  split.
  - intros Hnone s Hs Hv.
    assert (is_valid_phone_number phone = Some (u "254" ++ s)) as Hsome
      by (apply is_valid_phone_number_spec; by exists s).
    congruence.
  - intros Hno. destruct (is_valid_phone_number phone) as [out|] eqn:E; [|done].
    apply is_valid_phone_number_spec in E as (s & Hs & Hv & _).
    destruct (Hno s Hs Hv).
Qed.

(** X2.  Whenever the normalizer accepts an input, the input without its
    separators has 9, 10, 12 or 13 characters, each a decimal digit or a
    plus sign, and the result is 254 followed by its last nine
    characters. *)
Theorem normalizer_keeps_last_nine phone out :
  is_valid_phone_number phone = Some out ->
  let t := remove_separators phone in
  In (length t) [9; 10; 12; 13]%nat
  /\ Forall (fun c => is_digit c = true \/ c = 43%N) t
  /\ out = u "254" ++ drop (length t - 9) t.
Proof.
  intros H t. apply is_valid_phone_number_spec in H as (s & Hs & Hv & ->).
  fold t in Hv.
  apply is_subscriber_inv in Hs
    as (lead & d1 & d2 & d3 & d4 & d5 & d6 & d7 & d8 & -> & Hlead & Hds).
  assert (is_digit lead = true) as Hl by (by destruct Hlead as [-> | ->]).
  assert (forall c, In c (u "254") -> is_digit c = true) as H254
    by (by intros c [<-|[<-|[<-|[]]]]).
  assert (is_digit 48%N = true) as H0 by done.
  destruct Hv as [-> | [-> | [-> | ->]]]; simpl;
    (split; [tauto|]); (split; [|reflexivity]);
    repeat (apply Forall_cons; split; [by (left + right)|]);
    eapply Forall_impl; try exact Hds; simpl; tauto.
Qed.

(** X3.  The [strip()] that [get_phone_number] applies before validating
    changes nothing: the normalizer gives a text and the text without its
    leading and trailing whitespace the same answer. *)
Theorem strip_before_validation_is_neutral body :
  is_valid_phone_number (py_strip body) = is_valid_phone_number body.
Proof. unfold is_valid_phone_number. by rewrite remove_separators_strip. Qed.

(** ** More on the conversation *)

(** [\d+] takes a run of digits to its end when what follows accepts that. *)
Lemma rmatch_digits_all ds g k :
  ds <> [] -> forallb is_digit ds = true -> is_Some (k [] g) ->
  rmatch RDigits ds g k = k [] g.
Proof.
  intros Hne Hds Hk. induction ds as [|c ds IH]; [done|].
  simpl in Hds. apply andb_true_iff in Hds as [Hc Hds].
  simpl. rewrite Hc.
  destruct ds as [|c' ds'].
  - reflexivity.
  - simpl in IH. rewrite IH by done. by destruct Hk as [a ->].
Qed.

(** The pattern of [choose_package_handler] matches [data_] followed by
    digits. *)
Lemma data_key_matches ds :
  ds <> [] -> forallb is_digit ds = true ->
  is_Some (re_match choose_package_pattern (u "data_" ++ ds)).
Proof.
  intros Hne Hds. unfold re_match, choose_package_pattern.
  change (rmatch (RSeq ?r1 ?r2) ?s ?g ?k)
    with (rmatch r1 s g (fun s' g' => rmatch r2 s' g' k)).
  change (rmatch (RGroup ?r1) ?s ?g ?k)
    with (rmatch r1 s g (fun s' _ => k s' (Some (take (length s - length s') s)))).
  change (rmatch (RAlt ?r1 ?r2) ?s ?g ?k)
    with (match rmatch r1 s g k with Some a => Some a | None => rmatch r2 s g k end).
  change (rmatch (RSeq ?r1 ?r2) ?s ?g ?k)
    with (rmatch r1 s g (fun s' g' => rmatch r2 s' g' k)).
  change (rmatch (RLit ?l) ?s ?g ?k)
    with (match strip_prefix l s with Some s' => k s' g | None => None end).
  rewrite strip_prefix_app.
  rewrite rmatch_digits_all; [|done|done|]; cbn [rmatch]; eauto.
Qed.

(** X4.  In CHOOSING_PACKAGE every key of the catalog is taken as a
    package selection: the press is answered, the menu deleted, the phone
    number asked for with the details of that package; the package and its
    key are stored, last_message takes the prompt, and the conversation
    moves to GETTING_PHONE. *)
Theorem every_offer_is_selectable ud i origin key p :
  dict_get data_packages key = Some p ->
  handle_update {| current := CHOOSING_PACKAGE; user_data := ud |}
    (CallbackQuery key origin) i
  = Some ({| current := GETTING_PHONE;
             user_data :=
               <["last_message" := VMessage (replies i 0)]>
                 (<["package_key" := VStr key]> (<["package" := VPackage p]> ud)) |},
          [Answer; Delete origin (deleted i); ReplyText (EnterPhone p)]).
Proof.
  intros H. pose proof (catalog_keys _ _ H) as Hin.
  assert (select_handler CHOOSING_PACKAGE (CallbackQuery key origin)
          = Some choose_package_handler) as Hsel.
  { simpl in Hin. repeat destruct Hin as [<-|Hin]; try done; by vm_compute. }
  unfold handle_update. simpl current. rewrite Hsel. simpl callback.
  unfold choose_package.
  assert (forall word, dict_get data_packages word = None -> key <> word) as Hne
    by (intros word Hw ->; congruence).
  rewrite !decide_False by (apply Hne; by vm_compute).
  by rewrite H.
Qed.

(** X5.  In CHOOSING_PACKAGE a press whose data is [data_] followed by
    digits that name no package of the catalog, or is [section_header], is
    taken by [choose_package], answered with the invalid-selection text,
    and changes neither the state nor [context.user_data]. *)
Theorem unknown_offer_is_rejected ud i origin ds :
  ds <> [] -> forallb is_digit ds = true ->
  dict_get data_packages (u "data_" ++ ds) = None ->
  Forall
    (fun choice =>
       handle_update {| current := CHOOSING_PACKAGE; user_data := ud |}
         (CallbackQuery choice origin) i
       = Some ({| current := CHOOSING_PACKAGE; user_data := ud |},
               [Answer; ReplyText InvalidSelection]))
    [u "data_" ++ ds; u "section_header"].
Proof.
  intros Hne Hds Hnone.
  apply Forall_cons. split; [|apply Forall_cons; split; [by vm_compute|done]].
  assert (select_handler CHOOSING_PACKAGE (CallbackQuery (u "data_" ++ ds) origin)
          = Some choose_package_handler) as Hsel.
  { unfold select_handler, states. cbn [app List.find check_update].
    by rewrite bool_decide_eq_true_2 by (by apply data_key_matches). }
  unfold handle_update. cbn [current user_data]. rewrite Hsel.
  unfold callback, choose_package.
  rewrite !decide_False by (literals; simpl; discriminate).
  by rewrite Hnone.
Qed.

(** X6.  In GETTING_PHONE, with a package stored, a text that is one of
    the four ways of writing a subscriber number, with whatever separators
    and surrounding whitespace, is answered with the purchase summary for
    the stored package and 254 followed by the number; that string is
    stored as phone_number, nothing else in [context.user_data] changes,
    and the conversation moves to CONFIRMING_PURCHASE. *)
Theorem accepted_phone_is_summarized ud i body s p :
  is_subscriber s = true -> accepted_variant s (remove_separators body) ->
  ud !! "package" = Some (VPackage p) ->
  handle_update {| current := GETTING_PHONE; user_data := ud |} (TextMessage body) i
  = Some ({| current := CONFIRMING_PURCHASE;
             user_data := <["phone_number" := VStr (u "254" ++ s)]> ud |},
          delete_last_message i ud ++ [ReplyText (PurchaseSummary p (u "254" ++ s))]).
Proof.
  intros Hs Hv Hp.
  assert (is_valid_phone_number (py_strip body) = Some (u "254" ++ s)) as Hvalid.
  { unfold is_valid_phone_number. rewrite remove_separators_strip.
    apply (is_valid_phone_number_spec body). by exists s. }
  unfold handle_update. simpl. unfold get_phone_number. by rewrite Hvalid, Hp.
Qed.

(** X7.  [/restart] is taken by the purchase conversation in every state,
    also outside a conversation: the restart text is sent, the user is
    registered, the category menu is shown, [context.user_data] is emptied
    and then holds the menu message as last_message only, and the state is
    CHOOSING_PACKAGE. *)
Theorem restart_resets_the_purchase s i :
  handle_update s (Command (u "restart")) i
  = Some ({| current := CHOOSING_PACKAGE;
             user_data := <["last_message" := VMessage (replies i 1)]> ∅ |},
          [ReplyText Restarted; RegisterUser (effective_user i);
           ReplyText SelectCategoryWelcome]).
Proof.
  unfold handle_update. by rewrite restart_always_taken.
Qed.

Lemma data_typed_empty : data_typed ∅.
Proof.
  unfold data_typed. split_and!.
  - intros key. rewrite lookup_empty. by intros [? ?].
  - intros v. by rewrite lookup_empty.
  - intros v. by rewrite lookup_empty.
  - rewrite !lookup_empty. split; by intros [? ?].
  - intros v. by rewrite lookup_empty.
Qed.

Lemma data_typed_last_message m ud :
  data_typed ud -> data_typed (<["last_message" := VMessage m]> ud).
Proof.
  intros (Hk & Hm & Hr & Hpk & Hp). unfold data_typed. split_and!.
  - intros key. destruct (decide (key = "last_message")) as [->|];
      [simpl; tauto|rewrite lookup_insert_ne by done; auto].
  - intros v. rewrite lookup_insert_eq. intros [= <-]. by exists m.
  - intros v. rewrite lookup_insert_ne by done. auto.
  - by rewrite !lookup_insert_ne by done.
  - intros v. rewrite !lookup_insert_ne by done. auto.
Qed.

Lemma data_typed_phone_number formatted ud :
  data_typed ud -> data_typed (<["phone_number" := VStr formatted]> ud).
Proof.
  intros (Hk & Hm & Hr & Hpk & Hp). unfold data_typed. split_and!.
  - intros key. destruct (decide (key = "phone_number")) as [->|];
      [simpl; tauto|rewrite lookup_insert_ne by done; auto].
  - intros v. rewrite lookup_insert_ne by done. auto.
  - intros v. rewrite lookup_insert_ne by done. auto.
  - by rewrite !lookup_insert_ne by done.
  - intros v. rewrite !lookup_insert_ne by done. auto.
Qed.

Lemma data_typed_reference timestamp uuid4 ud :
  data_typed ud ->
  data_typed (<["reference" := VStr (generate_reference timestamp uuid4)]> ud).
Proof.
  intros (Hk & Hm & Hr & Hpk & Hp). unfold data_typed. split_and!.
  - intros key. destruct (decide (key = "reference")) as [->|];
      [simpl; tauto|rewrite lookup_insert_ne by done; auto].
  - intros v. rewrite lookup_insert_ne by done. auto.
  - intros v. rewrite lookup_insert_eq. intros [= <-]. by eexists _, _.
  - by rewrite !lookup_insert_ne by done.
  - intros v. rewrite !lookup_insert_ne by done. auto.
Qed.

Lemma data_typed_package key p ud :
  dict_get data_packages key = Some p ->
  data_typed ud ->
  data_typed (<["package_key" := VStr key]> (<["package" := VPackage p]> ud)).
Proof.
  intros Hkey (Hk & Hm & Hr & Hpk & Hp). unfold data_typed. split_and!.
  - intros k. destruct (decide (k = "package_key")) as [->|]; [simpl; tauto|].
    rewrite lookup_insert_ne by done.
    destruct (decide (k = "package")) as [->|]; [simpl; tauto|].
    rewrite lookup_insert_ne by done. auto.
  - intros v. rewrite !lookup_insert_ne by done. auto.
  - intros v. rewrite !lookup_insert_ne by done. auto.
  - rewrite lookup_insert_eq, lookup_insert_ne, lookup_insert_eq by done.
    split; intros _; by eexists.
  - intros v. rewrite lookup_insert_eq. intros [= <-].
    exists key, p. by rewrite lookup_insert_ne, lookup_insert_eq by done.
Qed.

Lemma handle_update_typed s upd i s' made :
  data_typed (user_data s) -> handle_update s upd i = Some (s', made) ->
  data_typed (user_data s').
Proof.
  destruct s as [st ud]. unfold handle_update. simpl.
  intros Hd H.
  destruct (select_handler st upd) as [h|] eqn:Hsel; [|done].
  injection H as <- <-.
  apply select_handler_inv in Hsel as [Hchk Hin].
  destruct st; simpl in Hin; intuition subst; destruct upd; try discriminate Hchk;
    open_handlers;
    repeat first [case_decide | case_match]; simpl;
    repeat first
      [ assumption
      | apply data_typed_last_message
      | apply data_typed_phone_number
      | apply data_typed_reference
      | apply data_typed_empty
      | eapply data_typed_package; [eassumption|] ].
Qed.

(** X8.  In every session the purchase conversation can reach,
    [context.user_data] holds nothing but the five keys the handlers write:
    last_message is a message, reference a generated reference, and
    package_key is stored exactly when package is, and is then the key
    under which the catalog has the stored package. *)
Theorem session_data_is_typed s : reachable s -> data_typed (user_data s).
Proof.
  induction 1 as [|s upd i s' made _ IH Hstep|s _ IH].
  - apply data_typed_empty.
  - by eapply handle_update_typed.
  - exact IH.
Qed.

(** A handler the conversation selects in a session that is [session_ok]
    returns. *)
Lemma selected_handler_returns s upd i h :
  session_ok s -> select_handler (current s) upd = Some h ->
  is_Some (returned (callback h upd i (user_data s))).
Proof.
  destruct s as [st ud]. unfold session_ok. simpl. intros (Hd & Hg & Hc) Hsel.
  apply select_handler_inv in Hsel as [Hchk Hin].
  assert (match ud !! "package" with
          | Some (VPackage _) | None => True
          | _ => False
          end) as Hshape.
  { destruct (ud !! "package") as [v|] eqn:Hv; [|done].
    destruct Hd as [Hp _]. by destruct (Hp v Hv) as (? & p & -> & _). }
  assert (st = CONFIRMING_PURCHASE -> ud !! "package" <> None) as Hstored.
  { intros Hst. destruct (Hc Hst) as [[? ->] _]. done. }
  clear Hd Hg Hc.
  destruct st; simpl in Hin; intuition subst; destruct upd; try discriminate Hchk;
    open_handlers;
    repeat first [case_decide | case_match]; simpl;
    try (eexists; reflexivity);
    try (exfalso; exact Hshape);
    match goal with
    | H : None = None -> False |- _ => destruct (H eq_refl)
    | H : bingwa_packages = None |- _ => vm_compute in H; discriminate H
    | H : normal_packages = None |- _ => vm_compute in H; discriminate H
    end.
Qed.

(** X9.  No handler of the purchase conversation raises in a session the
    conversation can reach: the handler that takes an update returns a
    state, which becomes the state of the conversation; and the text for a
    missing package is never sent. *)
Theorem reachable_handlers_return s upd i s' made :
  reachable s -> handle_update s upd i = Some (s', made) ->
  (exists h, select_handler (current s) upd = Some h
             /\ returned (callback h upd i (user_data s)) = Some (current s'))
  /\ ~ In (ReplyText NoPackageSelected) made.
Proof.
  intros Hs Hstep. apply reachable_ok in Hs.
  unfold handle_update in Hstep.
  destruct (select_handler (current s) upd) as [h|] eqn:Hsel; [|done].
  injection Hstep as <- <-.
  destruct (selected_handler_returns s upd i h Hs Hsel) as [st Hst].
  split; [exists h; split; [done|]; simpl; by rewrite Hst|].
  clear Hst. destruct s as [st0 ud]. simpl in *.
  destruct Hs as (Hd & Hg & Hc). simpl in Hg, Hc.
  apply select_handler_inv in Hsel as [Hchk Hin].
  destruct st0; simpl in Hin; intuition subst; destruct upd; try discriminate Hchk;
    match goal with H : In _ _ |- _ => revert H end;
    open_handlers; unfold delete_last_message, initiate_stk_push, stk_push_text;
    repeat first [case_decide | case_bool_decide | case_match]; simpl;
    try (intuition discriminate);
    match goal with H : is_Some None |- _ => by destruct H end.
Qed.

(** X10.  In a session the conversation can reach, an update makes at most
    one request to the gateway, and makes one only when the state is
    CONFIRMING_PURCHASE and the update is a button press the confirmation
    handler takes whose data is not change_phone; the conversation then
    ends.  Every request carries the price of a package of the catalog and
    a phone number the normalizer returned. *)
Theorem request_needs_confirmation s upd i s' made :
  reachable s -> handle_update s upd i = Some (s', made) ->
  length (posts made) <= 1
  /\ (posts made <> [] ->
      current s = CONFIRMING_PURCHASE /\ current s' = END
      /\ exists choice origin,
           upd = CallbackQuery choice origin
           /\ check_update confirm_handler upd = true
           /\ choice <> u "change_phone")
  /\ Forall request_ok made.
Proof.
  intros Hs Hstep. apply reachable_ok in Hs.
  destruct s as [st ud]. unfold handle_update in Hstep. simpl in *.
  destruct Hs as ((Hp & Hn) & Hg & Hc). simpl in Hg, Hc.
  destruct (select_handler st upd) as [h|] eqn:Hsel; [|done].
  injection Hstep as <- <-.
  apply select_handler_inv in Hsel as [Hchk Hin].
  destruct st; each_handler Hin; destruct upd; try discriminate Hchk;
    open_handlers; unfold delete_last_message, initiate_stk_push;
    repeat first [case_decide | case_match]; simpl;
    try (split_and!; [lia|done|repeat constructor]);
    try (destruct (Hc eq_refl) as [_ [? ?]]; discriminate).
  split_and!; [lia| |].
  - intros _. split_and!; [done|done|]. by eexists _, _.
  - repeat (apply Forall_cons; split; [try exact I|]); [|done].
    simpl. split_and!; [| |done].
    + match goal with
      | H : ud !! "package" = Some (VPackage ?p) |- _ =>
          destruct (Hp _ H) as (key & p' & [= <-] & Hkey); by exists key, p
      end.
    + match goal with
      | H : ud !! "phone_number" = Some (VStr ?f) |- _ =>
          destruct (Hn _ H) as (phone & f' & [= <-] & Hvalid); by exists phone, f
      end.
Qed.

(** The buttons of the two package menus. *)
Lemma deals_buttons packages d :
  (bingwa_packages = Some packages \/ normal_packages = Some packages) ->
  In d (map snd (deals_keyboard packages)) ->
  In d [u "data_1"; u "data_2"; u "data_3"; u "data_4"; u "data_5"; u "data_6";
        u "data_7"; u "data_8"; u "data_9"; u "data_10"; u "data_11";
        u "back_to_categories"; u "support"; u "cancel_purchase"].
Proof.
  intros [H|H]; vm_compute in H; injection H as <-; vm_compute; tauto.
Qed.

Lemma stk_push_text_no_buttons reply user reference :
  reply_markup (stk_push_text reply user reference) = [].
Proof.
  unfold stk_push_text. by repeat first [case_bool_decide | case_match].
Qed.

(** X11.  Every button the purchase conversation puts on the screen is
    live: when a handler returns a state and has sent a text with buttons,
    a press of any of these buttons is taken by a handler of that state. *)
Theorem every_button_is_handled h upd i ud st t d origin :
  returned (callback h upd i ud) = Some st ->
  In (ReplyText t) (calls (callback h upd i ud)) ->
  In d (reply_markup t) ->
  is_Some (select_handler st (CallbackQuery d origin)).
Proof.
  intros Hret Hin Hd.
  assert (st = CHOOSING_PACKAGE
          /\ In d [u "data_1"; u "data_2"; u "data_3"; u "data_4"; u "data_5";
                   u "data_6"; u "data_7"; u "data_8"; u "data_9"; u "data_10";
                   u "data_11"; u "back_to_categories"; u "support";
                   u "cancel_purchase"; u "bingwa_deals"; u "normal_deals"]
          \/ st = CONFIRMING_PURCHASE
             /\ In d [u "confirm_purchase"; u "change_phone"; u "cancel_purchase"])
    as [[-> Hcase]|[-> Hcase]].
  { revert Hret Hin.
    destruct h, upd; open_handlers;
      unfold delete_last_message, initiate_stk_push;
      repeat first [case_decide | case_match]; simpl;
      intros [= <-] Hin;
      repeat (destruct Hin as [[= <-]|Hin]); try destruct Hin;
      rewrite ?stk_push_text_no_buttons in Hd;
      try (exfalso; exact Hd);
      try (right; split; [reflexivity|exact Hd]);
      left; (split; [reflexivity|]);
      try (simpl in Hd; tauto);
      match goal with
      | H : bingwa_packages = Some ?l |- _ =>
          pose proof (deals_buttons l d (or_introl H) Hd) as Hb
      | H : normal_packages = Some ?l |- _ =>
          pose proof (deals_buttons l d (or_intror H) Hd) as Hb
      end;
      simpl in Hb; simpl; tauto. }
  - simpl in Hcase. repeat (destruct Hcase as [<-|Hcase]); try destruct Hcase;
      eexists; vm_compute; reflexivity.
  - simpl in Hcase. repeat (destruct Hcase as [<-|Hcase]); try destruct Hcase;
      eexists; vm_compute; reflexivity.
Qed.

(** What an update does to the state of the conversation. *)
Lemma handle_update_state s upd i s' made :
  handle_update s upd i = Some (s', made) ->
  exists h, select_handler (current s) upd = Some h
            /\ check_update h upd = true
            /\ In h (match current s with
                     | END => entry_points
                     | _ => states (current s) ++ fallbacks
                     end)
            /\ current s' = default (current s) (returned (callback h upd i (user_data s)))
            /\ user_data s' = data (callback h upd i (user_data s))
            /\ made = calls (callback h upd i (user_data s)).
Proof.
  unfold handle_update.
  destruct (select_handler (current s) upd) as [h|] eqn:Hsel; [|done].
  intros [= <- <-]. exists h.
  apply select_handler_inv in Hsel as Hinv. destruct Hinv as [? ?]. by split_and!.
Qed.

(** X12.  How the purchase conversation moves: outside a conversation only
    the commands /start, /bundles and /restart are taken, and lead to
    CHOOSING_PACKAGE; GETTING_PHONE is entered from CHOOSING_PACKAGE by a
    press that names a package of the catalog and from CONFIRMING_PURCHASE
    by change_phone; CONFIRMING_PURCHASE is entered from GETTING_PHONE by a
    text the normalizer accepts; the conversation ends on a button press,
    or on a text when no package is stored; and the states of the admin
    conversation are never entered. *)
Theorem purchase_transitions s upd i s' made :
  handle_update s upd i = Some (s', made) ->
  (current s = END ->
   current s' = CHOOSING_PACKAGE
   /\ exists name, upd = Command name
                   /\ In name [u "start"; u "bundles"; u "restart"])
  /\ (current s' = GETTING_PHONE ->
      current s = GETTING_PHONE
      \/ (current s = CHOOSING_PACKAGE
          /\ exists key origin,
               upd = CallbackQuery key origin
               /\ is_Some (dict_get data_packages key))
      \/ (current s = CONFIRMING_PURCHASE
          /\ exists origin, upd = CallbackQuery (u "change_phone") origin))
  /\ (current s' = CONFIRMING_PURCHASE ->
      current s = CONFIRMING_PURCHASE
      \/ (current s = GETTING_PHONE
          /\ exists body formatted,
               upd = TextMessage body
               /\ is_valid_phone_number (py_strip body) = Some formatted
               /\ user_data s' = <["phone_number" := VStr formatted]> (user_data s)))
  /\ (current s' = END ->
      current s <> END
      /\ ((exists choice origin, upd = CallbackQuery choice origin)
          \/ (exists body, upd = TextMessage body /\ user_data s !! "package" = None)))
  /\ (current s' = ADMIN_COMMAND \/ current s' = ADMIN_BROADCAST_MESSAGE ->
      current s' = current s).
Proof.
  intros Hstep.
  apply handle_update_state in Hstep as (h & _ & Hchk & Hin & -> & -> & _).
  destruct s as [st ud]. simpl in *.
  destruct st; each_handler Hin; destruct upd; try discriminate Hchk;
    simpl in Hchk; try apply bool_decide_eq_true in Hchk;
    open_handlers;
    repeat first [case_decide | case_match]; simpl; subst;
    (split_and!; [intros Hst|intros Hst|intros Hst|intros Hst|intros [Hst|Hst]]);
    try discriminate Hst; try done;
    try (split; [done|]);
    eauto 10.
  all: try (left; by eexists _, _).
  all: try (right; left; split; [done|]; eexists _, _; split; [done|]; by eexists).
  all: try (right; right; split; [done|]; by eexists).
Qed.

(** What the pattern of the confirmation handler matches. *)
Lemma confirm_pattern_inv choice :
  is_Some (re_match confirm_pattern choice) ->
  In choice [u "confirm_purchase"; u "confirm_purchase" ++ [10%N];
             u "change_phone"; u "change_phone" ++ [10%N]].
Proof.
  intros [g H]. apply rmatch_sound in H as (s' & g' & H & _).
  simpl in H. unpack; rewrite ?app_nil_r; simpl; tauto.
Qed.

(** A press the confirmation pattern matches is taken in
    CONFIRMING_PURCHASE only, by the confirmation handler. *)
Lemma confirmation_taken st choice origin h :
  is_Some (re_match confirm_pattern choice) ->
  select_handler st (CallbackQuery choice origin) = Some h ->
  st = CONFIRMING_PURCHASE /\ h = confirm_handler.
Proof.
  intros Hm%confirm_pattern_inv. simpl in Hm.
  repeat (destruct Hm as [<-|Hm]); try destruct Hm;
    destruct st; vm_compute; intros [= <-]; done.
Qed.

Lemma posts_per_update s upd i s' made :
  session_ok s -> handle_update s upd i = Some (s', made) ->
  length (posts made) = if confirms upd then 1 else 0.
Proof.
  intros Hs Hstep.
  apply handle_update_state in Hstep as (h & Hsel & Hchk & Hin & _ & _ & ->).
  destruct s as [st ud]. destruct Hs as ((Hp & Hn) & _ & Hc).
  cbn [current user_data] in *.
  destruct (confirms upd) eqn:Econf.
  - destruct upd as [|choice origin|]; try discriminate Econf.
    cbn [confirms] in Econf. apply andb_true_iff in Econf as [Hm Hne].
    cbn [check_update] in Hm.
    apply bool_decide_eq_true in Hm. apply negb_true_iff, bool_decide_eq_false in Hne.
    destruct (confirmation_taken _ _ _ _ Hm Hsel) as [-> ->].
    destruct (Hc eq_refl) as [[v Hv] [w Hw]].
    destruct (Hp v Hv) as (key & p & -> & _).
    destruct (Hn w Hw) as (phone & formatted & -> & _).
    cbn [callback]. unfold handle_confirmation, initiate_stk_push.
    rewrite decide_False, Hv, Hw by done. reflexivity.
  - assert (h = confirm_handler ->
            exists origin, upd = CallbackQuery (u "change_phone") origin) as Hconf.
    { intros ->. destruct upd as [|choice origin|]; try discriminate Hchk.
      cbn [confirms] in Econf. rewrite Hchk in Econf.
      apply negb_false_iff, bool_decide_eq_true in Econf as ->. by exists origin. }
    clear Econf Hsel Hc Hp Hn.
    destruct st; each_handler Hin; destruct upd; try discriminate Hchk;
      try (destruct (Hconf eq_refl) as [? [= -> ->]]);
      open_handlers; unfold delete_last_message;
      repeat first [case_decide | case_match]; try done.
Qed.

(** X13.  Over a run of the conversation from its start, the number of
    requests made to the gateway is the number of presses of a
    confirmation button other than change_phone: each such press is
    charged once, and nothing else is. *)
Theorem requests_match_confirmations trace s made :
  run initial trace = Some (s, made) ->
  length (posts made) = length (List.filter (fun x => confirms (fst x)) trace).
Proof.
  assert (forall trace s0 s made,
            reachable s0 -> run s0 trace = Some (s, made) ->
            length (posts made)
            = length (List.filter (fun x => confirms (fst x)) trace)) as Hgen.
  { clear. induction trace as [|[upd i] rest IH]; intros s0 s made Hs0; simpl.
    - by intros [= _ <-].
    - destruct (handle_update s0 upd i) as [[s1 made1]|] eqn:E; [|done].
      destruct (run s1 rest) as [[s2 made2]|] eqn:E'; [|done].
      intros [= _ <-].
      rewrite posts_app, length_app.
      rewrite (posts_per_update _ _ _ _ _ (reachable_ok _ Hs0) E).
      rewrite (IH s1 s2 made2 (reachable_update _ _ _ _ _ Hs0 E) E').
      by destruct (confirms upd). }
  apply Hgen. apply reachable_initial.
Qed.

End ConversationFacts.

(** ** Transaction references *)

(** A test that holds on [lo], ..., [lo + n - 1] holds on every integer of
    that range. *)
Lemma range_check (P : Z -> bool) (lo n : nat) :
  forallb P (map Z.of_nat (seq lo n)) = true ->
  forall z, (Z.of_nat lo <= z < Z.of_nat lo + Z.of_nat n)%Z -> P z = true.
Proof.
  intros H z Hz. rewrite forallb_forall in H. apply H.
  rewrite <- (Z2Nat.id z) by lia. apply in_map, in_seq. lia.
Qed.

Lemma year_four_digits y : (1000 <= y <= 9999)%Z -> length (py_str y) = 4.
Proof.
  intros Hy.
  apply Nat.eqb_eq, (range_check (fun y => length (py_str y) =? 4) 1000 (90 * 100));
    [by vm_compute|lia].
Qed.

Lemma two_digits_spec n :
  (0 <= n <= 59)%Z -> length (two_digits n) = 2 /\ py_int (two_digits n) = Some n.
Proof.
  intros Hn.
  pose (test := fun n => (length (two_digits n) =? 2)
                         && match py_int (two_digits n) with
                            | Some m => (m =? n)%Z
                            | None => false
                            end).
  assert (test n = true) as H
    by (apply (range_check test 0 60); [by vm_compute|lia]).
  unfold test in H. apply andb_true_iff in H as [H1 H2].
  split; [by apply Nat.eqb_eq|].
  destruct (py_int (two_digits n)) as [m|]; [|done].
  by apply Z.eqb_eq in H2 as ->.
Qed.

Lemma two_digits_length n : (0 <= n <= 59)%Z -> length (two_digits n) = 2.
Proof. intros Hn. by apply two_digits_spec. Qed.

Lemma two_digits_inj m n :
  (0 <= m <= 59)%Z -> (0 <= n <= 59)%Z -> two_digits m = two_digits n -> m = n.
Proof.
  intros Hm Hn H.
  destruct (two_digits_spec m Hm) as [_ Hm'].
  destruct (two_digits_spec n Hn) as [_ Hn'].
  rewrite H in Hm'. congruence.
Qed.

Lemma format_timestamp_length now :
  on_calendar now -> length (format_timestamp now) = 14.
Proof.
  intros (Hy & Hm & Hd & Hh & Hmi & Hs). unfold format_timestamp.
  rewrite !length_app, year_four_digits by done.
  rewrite !two_digits_length by lia. done.
Qed.

Lemma format_timestamp_inj a b :
  on_calendar a -> on_calendar b -> format_timestamp a = format_timestamp b -> a = b.
Proof.
  intros (Hy & Hm & Hd & Hh & Hmi & Hs) (Hy' & Hm' & Hd' & Hh' & Hmi' & Hs').
  unfold format_timestamp. intros H.
  apply app_inj_1 in H as [H1 H]; [|by rewrite !year_four_digits].
  apply app_inj_1 in H as [H2 H]; [|by rewrite !two_digits_length by lia].
  apply app_inj_1 in H as [H3 H]; [|by rewrite !two_digits_length by lia].
  apply app_inj_1 in H as [H4 H]; [|by rewrite !two_digits_length by lia].
  apply app_inj_1 in H as [H5 H6]; [|by rewrite !two_digits_length by lia].
  apply py_str_inj in H1.
  apply two_digits_inj in H2, H3, H4, H5, H6; try lia.
  destruct a, b; simpl in *; congruence.
Qed.

(** X14.  A reference is [BINGWA-], the fourteen digits of the time to the
    second, a hyphen and the first eight characters of the UUID: thirty
    characters for a UUID of at least eight.  Two references are equal
    exactly when they were generated in the same second from UUIDs that
    agree on their first eight characters. *)
Theorem references_differ a b uuid_a uuid_b :
  on_calendar a -> on_calendar b ->
  generate_reference (format_timestamp a) uuid_a
  = u "BINGWA-" ++ format_timestamp a ++ u "-" ++ take 8 uuid_a
  /\ length (format_timestamp a) = 14
  /\ (8 <= length uuid_a ->
      length (generate_reference (format_timestamp a) uuid_a) = 30)
  /\ (generate_reference (format_timestamp a) uuid_a
      = generate_reference (format_timestamp b) uuid_b
      <-> a = b /\ take 8 uuid_a = take 8 uuid_b).
Proof.
  intros Ha Hb.
  pose proof (format_timestamp_length a Ha) as Hla.
  pose proof (format_timestamp_length b Hb) as Hlb.
  split_and!; [done|done| |].
  - intros Hu. unfold generate_reference.
    rewrite !length_app, Hla, length_take.
    change (length (u "BINGWA-")) with 7. change (length (u "-")) with 1. lia.
  - unfold generate_reference. split.
    + intros H. apply app_inv_head in H.
      apply app_inj_1 in H as [H1 H2]; [|congruence].
      apply app_inv_head in H2. split; [|done].
      by apply format_timestamp_inj.
    + by intros [-> ->].
Qed.

(** ** More on the user directory *)






(** ** More on the admin broadcast *)




(** ** The admin panel *)

Lemma string_of_uint_chars d :
  forallb numeral_char (u (NilEmpty.string_of_uint d)) = true.
Proof. induction d; simpl; try done. Qed.

Lemma string_of_uint_zero_chars d :
  forallb numeral_char (u (NilZero.string_of_uint d)) = true.
Proof.
  destruct d; [done|..];
    match goal with
    | |- context [NilZero.string_of_uint ?x] => exact (string_of_uint_chars x)
    end.
Qed.

Lemma py_str_chars n : forallb numeral_char (py_str n) = true.
Proof.
  unfold py_str, NilZero.string_of_int.
  destruct (Z.to_int n) as [d|d]; [apply string_of_uint_zero_chars|].
  cbn [u forallb]. apply string_of_uint_zero_chars.
Qed.

Lemma py_str_nonempty n : py_str n <> [].
Proof.
  intros H. pose proof (py_int_py_str n) as Hn. rewrite H in Hn. discriminate Hn.
Qed.

(** X19.  Nobody is an admin when ADMIN_USER_IDS is not set or is empty.
    In general a user is an admin only through a field of the variable
    that is exactly the decimal numeral of the user's id: the field is not
    empty and holds nothing but digits and a minus sign, so a field written
    with a blank around the number admits nobody. *)
Theorem admin_needs_exact_numeral :
  (forall n, is_admin (ADMIN_USER_IDS None) n = false
             /\ is_admin (ADMIN_USER_IDS (Some [])) n = false)
  /\ (forall env n,
        is_admin (ADMIN_USER_IDS env) n = true ->
        exists field,
          In field (py_split 44%N (default [] env))
          /\ py_int field = Some n
          /\ field <> []
          /\ forallb numeral_char field = true).
Proof.
  split.
  - intros n. assert (is_admin [[]] n = false) as H; [|by split].
    unfold is_admin. apply bool_decide_eq_false.
    intros Hin%list_elem_of_singleton. by apply (py_str_nonempty n).
  - intros env n H. apply bool_decide_eq_true in H. exists (py_str n).
    split_and!.
    + by apply list_elem_of_In.
    + apply py_int_py_str.
    + apply py_str_nonempty.
    + apply py_str_chars.
Qed.

Section ApplicationFacts.

Context {U : Unicode}.

(** ** The application *)

(** The purchase conversation takes none of the commands of the other
    handlers. *)
Lemma purchase_leaves_command st name :
  In name [u "admin"; u "cancel"; u "help"; u "about"; u "support"] ->
  select_handler st (Command name) = None.
Proof.
  simpl. intros H. repeat (destruct H as [<-|H]); try destruct H;
    destruct st; by vm_compute.
Qed.

(** ... and none of the presses of the admin panel. *)
Lemma purchase_leaves_admin_button st choice origin :
  In choice [u "admin_broadcast"; u "admin_stats"; u "admin_exit"] ->
  select_handler st (CallbackQuery choice origin) = None.
Proof.
  simpl. intros H. repeat (destruct H as [<-|H]); try destruct H;
    destruct st; by vm_compute.
Qed.

(** The purchase conversation sends no broadcast message. *)
Lemma handle_update_no_admin_action s upd i s' made :
  handle_update s upd i = Some (s', made) ->
  Forall (fun a => admin_action a = false) (map Call made).
Proof.
  intros Hstep.
  apply handle_update_state in Hstep as (h & _ & Hchk & Hin & _ & _ & ->).
  destruct s as [st ud]. cbn [current user_data] in *.
  destruct st; each_handler Hin; destruct upd; try discriminate Hchk;
    open_handlers; unfold delete_last_message, initiate_stk_push;
    repeat first [case_decide | case_match]; simpl; by repeat constructor.
Qed.

(** One update of a user who is no admin. *)
Lemma process_update_non_admin admin_ids a upd e a' made :
  is_admin admin_ids (user_id (effective_user (purchase_inputs e))) = false ->
  admin a = END ->
  process_update admin_ids a upd e = (a', made) ->
  admin a' = END /\ Forall (fun c => admin_action c = false) made.
Proof.
  intros Hno Hend. destruct a as [[st ud] ast]. cbn [admin] in Hend. subst ast.
  unfold process_update. cbn [purchase admin current user_data].
  destruct (handle_update _ upd (purchase_inputs e)) as [[s' made']|] eqn:E.
  - intros [= <- <-]. split; [done|]. by eapply handle_update_no_admin_action.
  - unfold admin_select_handler, admin_entry_points.
    destruct upd as [name|choice origin|body]; cbn [List.find admin_check_update].
    + case_bool_decide.
      * cbn [admin_callback]. unfold admin_command. rewrite Hno.
        intros [= <- <-]. split; [done|]. by repeat constructor.
      * unfold plain_command, help_command, about_command, contact_support,
          restart_command, show_bundles, after.
        repeat case_decide; intros [= <- <-]; (split; [done|]);
          by repeat constructor.
    + intros [= <- <-]. by split.
    + intros [= <- <-]. by split.
Qed.

(** X20.  A user who is no admin never gets into the admin conversation
    and never triggers a broadcast: whatever updates the user sends, from
    the start of the application, the admin conversation stays at END, no
    [send_message] call is made, and neither the admin panel, the prompt
    for a broadcast text nor the statistics are sent. *)
Theorem non_admin_never_broadcasts admin_ids user trace a made :
  is_admin admin_ids (user_id user) = false ->
  Forall (fun x => effective_user (purchase_inputs (snd x)) = user) trace ->
  serve admin_ids started trace = (a, made) ->
  admin a = END /\ Forall (fun c => admin_action c = false) made.
Proof.
  intros Hno Htrace.
  assert (admin started = END) as Hstart by done.
  revert Hstart. generalize started. revert a made.
  induction Htrace as [|[upd e] rest Huser _ IH]; intros a made a0 Hend; simpl.
  - intros [= <- <-]. by split.
  - destruct (process_update admin_ids a0 upd e) as [a1 made1] eqn:E1.
    destruct (serve admin_ids a1 rest) as [a2 made2] eqn:E2.
    intros [= <- <-]. simpl in Huser. rewrite <- Huser in Hno.
    destruct (process_update_non_admin _ _ _ _ _ _ Hno Hend E1) as [Hend1 Hsafe1].
    destruct (IH _ _ _ Hend1 E2) as [Hend2 Hsafe2].
    split; [done|]. by apply Forall_app.
Qed.

(** X21.  [/restart] resets the purchase conversation in every state of
    the application and leaves the admin conversation where it was: the
    purchase conversation takes the command before the admin conversation
    and the application's own handler see it. *)
Theorem restart_leaves_admin_conversation admin_ids a e :
  process_update admin_ids a (Command (u "restart")) e
  = ({| purchase :=
          {| current := CHOOSING_PACKAGE;
             user_data :=
               <["last_message" := VMessage (replies (purchase_inputs e) 1)]> ∅ |};
        admin := admin a |},
     [Call (ReplyText Restarted);
      Call (RegisterUser (effective_user (purchase_inputs e)));
      Call (ReplyText SelectCategoryWelcome)]).
Proof.
  unfold process_update, handle_update. by rewrite restart_always_taken.
Qed.

(** X22.  [/help], [/about] and [/support] are answered in every state of
    the two conversations: the user is registered, the text is sent, and
    neither conversation nor [context.user_data] changes. *)
Theorem help_is_always_answered admin_ids a e :
  let user := effective_user (purchase_inputs e) in
  process_update admin_ids a (Command (u "help")) e = (a, help_command user)
  /\ process_update admin_ids a (Command (u "about")) e = (a, about_command user)
  /\ process_update admin_ids a (Command (u "support")) e = (a, contact_support user).
Proof.
  assert (forall name st,
            In name [u "help"; u "about"; u "support"] ->
            admin_select_handler st (Command name) = None) as Hadmin.
  { simpl. intros name st H. repeat (destruct H as [<-|H]); try destruct H;
      destruct st; by vm_compute. }
  destruct a as [[st ud] ast].
  split_and!; unfold process_update, handle_update; cbn [purchase current admin];
    rewrite purchase_leaves_command, Hadmin by (simpl; tauto);
    unfold plain_command;
    rewrite ?decide_False by (by vm_compute); by rewrite decide_True by done.
Qed.

(** X23.  Inside a purchase conversation [/start] and [/bundles] are
    ignored: no handler of the application takes them, nothing is sent and
    nothing changes.  Only [/restart] starts over. *)
Theorem start_is_ignored_in_conversation admin_ids a e name :
  current (purchase a) <> END ->
  In name [u "start"; u "bundles"] ->
  process_update admin_ids a (Command name) e = (a, []).
Proof.
  intros Hst Hname. destruct a as [[st ud] ast]. cbn [purchase current] in Hst.
  simpl in Hname.
  repeat (destruct Hname as [<-|Hname]); try destruct Hname;
    unfold process_update, handle_update; cbn [purchase current admin];
    (replace (select_handler st _) with (@None handler)
       by (destruct st; try done; by vm_compute));
    (replace (admin_select_handler ast _) with (@None admin_handler)
       by (destruct ast; by vm_compute));
    unfold plain_command; by rewrite !decide_False by (by vm_compute).
Qed.

(** X24.  Who gets a text.  While the purchase conversation is in
    GETTING_PHONE a text goes to [get_phone_number], also when the admin
    conversation waits for the text of a broadcast: the admin conversation
    stays where it is and no message is sent to the users.  In the other
    states of the purchase conversation a text reaches the admin
    conversation when it waits for one, and is then broadcast; otherwise no
    handler takes it. *)
Theorem phone_entry_comes_before_broadcast admin_ids a e body :
  let i := purchase_inputs e in
  let ud := user_data (purchase a) in
  (current (purchase a) = GETTING_PHONE ->
   let r := get_phone_number i body ud in
   process_update admin_ids a (TextMessage body) e
   = ({| purchase := {| current := default GETTING_PHONE (returned r);
                        user_data := data r |};
         admin := admin a |},
      map Call (calls r))
   /\ Forall (fun c => admin_action c = false) (map Call (calls r)))
  /\ (current (purchase a) <> GETTING_PHONE ->
      admin a = ADMIN_BROADCAST_MESSAGE ->
      forall st made,
        admin_broadcast body (directory e) (delivered e) (edited e) = Some (st, made) ->
        process_update admin_ids a (TextMessage body) e
        = ({| purchase := purchase a; admin := st |}, map Call made))
  /\ (current (purchase a) <> GETTING_PHONE ->
      admin a <> ADMIN_BROADCAST_MESSAGE ->
      process_update admin_ids a (TextMessage body) e = (a, [])).
Proof.
  intros i ud. destruct a as [[st ud0] ast]. subst ud. cbn [purchase current user_data admin].
  assert (st <> GETTING_PHONE -> select_handler st (TextMessage body) = None) as Hnone.
  { intros Hst. by destruct st. }
  split_and!.
  - intros ->. unfold process_update, handle_update.
    cbn [purchase current user_data admin].
    change (select_handler GETTING_PHONE (TextMessage body)) with (Some phone_handler).
    cbn [callback]. split; [done|].
    unfold get_phone_number, delete_last_message.
    repeat case_match; simpl; by repeat constructor.
  - intros Hst -> st' made Hb. unfold process_update, handle_update.
    cbn [purchase current user_data admin]. rewrite Hnone by done.
    change (admin_select_handler ADMIN_BROADCAST_MESSAGE (TextMessage body))
      with (Some admin_broadcast_handler).
    cbn [admin_callback]. by rewrite Hb.
  - intros Hst Hast. unfold process_update, handle_update.
    cbn [purchase current user_data admin]. rewrite Hnone by done.
    by destruct ast.
Qed.

(** X25.  The buttons of the admin panel and of the text that closes a
    broadcast are live in ADMIN_COMMAND whatever the purchase conversation
    is doing: a press goes to [admin_handle_choice], which answers it and
    closes the panel, asks for the text of a broadcast, or shows the number
    of entries of the user file; the purchase conversation and
    [context.user_data] are left alone. *)
Theorem admin_buttons_are_handled admin_ids a e choice origin :
  admin a = ADMIN_COMMAND ->
  In choice (notice_markup AdminPanel ++ reply_markup BroadcastCompleted) ->
  process_update admin_ids a (CallbackQuery choice origin) e
  = ({| purchase := purchase a;
        admin := fst (admin_handle_choice choice (directory e)) |},
     snd (admin_handle_choice choice (directory e)))
  /\ In (admin_handle_choice choice (directory e))
       [ (END, [Call Answer; ReplyNotice AdminPanelClosed]);
         (ADMIN_BROADCAST_MESSAGE, [Call Answer; ReplyNotice BroadcastPrompt]);
         (ADMIN_COMMAND,
          [Call Answer;
           ReplyNotice (BotStatistics (length (load_user_data (directory e))))]) ].
Proof.
  intros Hast Hin. destruct a as [[st ud] ast]. cbn [admin] in Hast. subst ast.
  assert (In choice [u "admin_broadcast"; u "admin_stats"; u "admin_exit"]) as Hc.
  { simpl in Hin. simpl. tauto. }
  clear Hin. split.
  - unfold process_update, handle_update. cbn [purchase current user_data admin].
    rewrite purchase_leaves_admin_button by done.
    replace (admin_select_handler ADMIN_COMMAND (CallbackQuery choice origin))
      with (Some admin_choice_handler); [done|].
    simpl in Hc. repeat (destruct Hc as [<-|Hc]); try destruct Hc; by vm_compute.
  - simpl in Hc. repeat (destruct Hc as [<-|Hc]); try destruct Hc;
      unfold admin_handle_choice;
      rewrite ?decide_False by (by vm_compute); rewrite decide_True by done;
      simpl; tauto.
Qed.

(** X26.  [/admin] is never taken by the purchase conversation.  Outside
    an admin conversation it goes to [admin_command], which opens the panel
    for an admin and refuses everybody else; inside one no handler takes
    it. *)
Theorem admin_command_is_gated admin_ids a e :
  let user := effective_user (purchase_inputs e) in
  (admin a = END ->
   process_update admin_ids a (Command (u "admin")) e
   = if is_admin admin_ids (user_id user)
     then ({| purchase := purchase a; admin := ADMIN_COMMAND |}, [ReplyNotice AdminPanel])
     else ({| purchase := purchase a; admin := END |}, [ReplyNotice PermissionDenied]))
  /\ (admin a <> END ->
      process_update admin_ids a (Command (u "admin")) e = (a, [])).
Proof.
  intros user. destruct a as [[st ud] ast]. cbn [admin purchase].
  split.
  - intros ->. unfold process_update, handle_update. cbn [purchase current admin user_data].
    rewrite purchase_leaves_command by (simpl; tauto).
    change (admin_select_handler END (Command (u "admin")))
      with (Some admin_entry_handler).
    cbn [admin_callback]. unfold admin_command. fold user.
    by destruct (is_admin admin_ids (user_id user)).
  - intros Hast. unfold process_update, handle_update.
    cbn [purchase current admin user_data].
    rewrite purchase_leaves_command by (simpl; tauto).
    replace (admin_select_handler ast (Command (u "admin"))) with (@None admin_handler)
      by (destruct ast; try done; by vm_compute).
    unfold plain_command. by rewrite !decide_False by (by vm_compute).
Qed.

(** X27.  [/cancel] ends the admin conversation from each of its states,
    with the cancellation text, and leaves the purchase conversation and
    [context.user_data] alone; outside an admin conversation no handler
    takes it. *)
Theorem cancel_ends_admin_conversation admin_ids a e :
  (admin a <> END ->
   process_update admin_ids a (Command (u "cancel")) e
   = ({| purchase := purchase a; admin := END |}, [ReplyNotice AdminOperationCancelled]))
  /\ (admin a = END ->
      process_update admin_ids a (Command (u "cancel")) e = (a, [])).
Proof.
  destruct a as [[st ud] ast]. cbn [admin purchase].
  split.
  - intros Hast. unfold process_update, handle_update.
    cbn [purchase current admin user_data].
    rewrite purchase_leaves_command by (simpl; tauto).
    replace (admin_select_handler ast (Command (u "cancel")))
      with (Some admin_cancel_handler)
      by (destruct ast; try done; by vm_compute).
    reflexivity.
  - intros ->. unfold process_update, handle_update.
    cbn [purchase current admin user_data].
    rewrite purchase_leaves_command by (simpl; tauto).
    change (admin_select_handler END (Command (u "cancel"))) with (@None admin_handler).
    unfold plain_command. by rewrite !decide_False by (by vm_compute).
Qed.

End ApplicationFacts.

(** ** The further properties at work *)

Example phone_with_plus_after_zero :
  is_valid_phone_number (U := unicode14) (u "0+254712345678") = None.
Proof. vm_compute. reflexivity. Qed.

Example nobody_is_admin_by_default : is_admin (ADMIN_USER_IDS None) 1001 = false.
Proof. vm_compute. reflexivity. Qed.

Example padded_admin_id_admits_nobody :
  is_admin (ADMIN_USER_IDS (Some (u "1001, 1002"))) 1002 = false.
Proof. vm_compute. reflexivity. Qed.

Example reference_of_sample :
  generate_reference (format_timestamp new_year) (u "123e4567-e89b-12d3-a456-426614174000")
  = u "BINGWA-20240101120000-123e4567".
Proof. vm_compute. reflexivity. Qed.

(** Alice, an admin, in the middle of a purchase: the text she types for
    the broadcast is read as a phone number, and nothing is broadcast. *)
Example broadcast_text_read_as_phone_number :
  serve (U := unicode14) (ADMIN_USER_IDS (Some (u "1001"))) started admin_trace
  = ({| purchase := phone_entry_session; admin := ADMIN_BROADCAST_MESSAGE |},
     [ Call (RegisterUser alice); Call (ReplyText (Welcome (u "Alice")));
       Call (RegisterUser alice); Call (ReplyText SelectCategoryWelcome);
       Call Answer; Call Answer; Call (Delete 1 true);
       Call (ReplyText (BingwaDeals (deals_keyboard (take 8 data_packages))));
       Call Answer; Call (Delete 2 true); Call (ReplyText (EnterPhone data_1));
       ReplyNotice AdminPanel;
       Call Answer; ReplyNotice BroadcastPrompt;
       Call (Delete 3 true); Call (ReplyText InvalidPhone) ]).
Proof. vm_compute. reflexivity. Qed.

Lemma phone_entry_session_reachable : reachable (U := unicode14) phone_entry_session.
Proof.
  assert (exists made,
            run (U := unicode14) initial (take 3 purchase_trace)
            = Some (phone_entry_session, made)) as [made Hrun]
    by (eexists; vm_compute; reflexivity).
  eapply run_reachable; [apply reachable_initial|exact Hrun].
Qed.

Lemma last_nine_witness :
  let t := remove_separators (U := unicode14) (u "+254 (712) 345-678") in
  In (length t) [9; 10; 12; 13]
  /\ Forall (fun c => is_digit (U := unicode14) c = true \/ c = 43%N) t
  /\ u "254712345678" = u "254" ++ drop (length t - 9) t.
Proof.
  apply (normalizer_keeps_last_nine (U := unicode14)
           (u "+254 (712) 345-678") (u "254712345678")).
  vm_compute. reflexivity.
Defined.

Lemma selectable_witness :
  handle_update (U := unicode14) {| current := CHOOSING_PACKAGE; user_data := ∅ |}
    (CallbackQuery (u "data_1") 2) (sample_inputs 3)
  = Some ({| current := GETTING_PHONE;
             user_data :=
               <["last_message" := VMessage 3]>
                 (<["package_key" := VStr (u "data_1")]>
                    (<["package" := VPackage data_1]> ∅)) |},
          [Answer; Delete 2 true; ReplyText (EnterPhone data_1)]).
Proof.
  apply (every_offer_is_selectable (U := unicode14) ∅ (sample_inputs 3) 2
           (u "data_1") data_1).
  vm_compute. reflexivity.
Defined.

Lemma unknown_offer_witness :
  Forall
    (fun choice =>
       handle_update (U := unicode14) {| current := CHOOSING_PACKAGE; user_data := ∅ |}
         (CallbackQuery choice 2) (sample_inputs 3)
       = Some ({| current := CHOOSING_PACKAGE; user_data := ∅ |},
               [Answer; ReplyText InvalidSelection]))
    [u "data_" ++ u "99"; u "section_header"].
Proof.
  apply (unknown_offer_is_rejected (U := unicode14) ∅ (sample_inputs 3) 2 (u "99")).
  - vm_compute. discriminate.
  - vm_compute. reflexivity.
  - vm_compute. reflexivity.
Defined.

Lemma accepted_phone_witness :
  handle_update (U := unicode14) phone_entry_session
    (TextMessage (u " 0712 345-678 ")) (sample_inputs 4)
  = Some ({| current := CONFIRMING_PURCHASE;
             user_data :=
               <["phone_number" := VStr (u "254" ++ u "712345678")]>
                 (user_data phone_entry_session) |},
          delete_last_message (sample_inputs 4) (user_data phone_entry_session)
          ++ [ReplyText (PurchaseSummary data_1 (u "254" ++ u "712345678"))]).
Proof.
  apply (accepted_phone_is_summarized (U := unicode14)
           (user_data phone_entry_session) (sample_inputs 4)
           (u " 0712 345-678 ") (u "712345678") data_1).
  - vm_compute. reflexivity.
  - right. left. vm_compute. reflexivity.
  - vm_compute. reflexivity.
Defined.

Lemma typed_witness : data_typed (user_data confirming_session).
Proof.
  apply (session_data_is_typed (U := unicode14) confirming_session).
  exact confirming_session_reachable.
Defined.

Lemma handlers_return_witness :
  exists s' made,
    handle_update (U := unicode14) phone_entry_session
      (TextMessage (u "0712345678")) (sample_inputs 4) = Some (s', made)
    /\ (exists h,
          select_handler (U := unicode14) (current phone_entry_session)
            (TextMessage (u "0712345678")) = Some h
          /\ returned (callback (U := unicode14) h (TextMessage (u "0712345678")) (sample_inputs 4)
                         (user_data phone_entry_session))
             = Some (current s'))
    /\ ~ In (ReplyText NoPackageSelected) made.
Proof.
  eexists _, _. split; [vm_compute; reflexivity|].
  apply (reachable_handlers_return (U := unicode14) phone_entry_session
           (TextMessage (u "0712345678")) (sample_inputs 4)).
  - exact phone_entry_session_reachable.
  - vm_compute. reflexivity.
Defined.

Lemma request_witness :
  exists s' made,
    handle_update (U := unicode14) confirming_session
      (CallbackQuery (u "confirm_purchase") 4) (sample_inputs 5) = Some (s', made)
    /\ length (posts made) <= 1
    /\ Forall (request_ok (U := unicode14)) made.
Proof.
  eexists _, _. split; [vm_compute; reflexivity|].
  destruct (request_needs_confirmation (U := unicode14) confirming_session
              (CallbackQuery (u "confirm_purchase") 4) (sample_inputs 5) _ _
              confirming_session_reachable eq_refl) as (Hone & _ & Hok).
  split; [exact Hone|exact Hok].
Defined.

Lemma button_witness :
  is_Some (select_handler (U := unicode14) CHOOSING_PACKAGE
             (CallbackQuery (u "bingwa_deals") 1)).
Proof.
  apply (every_button_is_handled (U := unicode14) start_handler (Command (u "start"))
           (sample_inputs 0) ∅ CHOOSING_PACKAGE SelectCategoryWelcome
           (u "bingwa_deals") 1).
  - reflexivity.
  - simpl. tauto.
  - simpl. tauto.
Defined.

Lemma transitions_witness :
  exists s' made,
    handle_update (U := unicode14) phone_entry_session
      (TextMessage (u "0712345678")) (sample_inputs 4) = Some (s', made)
    /\ current s' = CONFIRMING_PURCHASE
    /\ user_data s'
       = <["phone_number" := VStr (u "254712345678")]> (user_data phone_entry_session).
Proof.
  eexists _, _. split; [vm_compute; reflexivity|].
  destruct (purchase_transitions (U := unicode14) phone_entry_session
              (TextMessage (u "0712345678")) (sample_inputs 4) _ _ eq_refl)
    as (_ & _ & Hconf & _).
  split; [reflexivity|].
  destruct (Hconf eq_refl) as [Hst|(_ & body & formatted & Hupd & Hvalid & Hdata)];
    [discriminate Hst|].
  injection Hupd as <-. vm_compute in Hvalid. injection Hvalid as <-. exact Hdata.
Defined.

Lemma confirmations_witness :
  exists s made,
    run (U := unicode14) initial
      (purchase_trace ++ [(CallbackQuery (u "confirm_purchase") 4, sample_inputs 5)])
    = Some (s, made)
    /\ length (posts made) = 1.
Proof.
  assert (exists s made,
            run (U := unicode14) initial
              (purchase_trace
               ++ [(CallbackQuery (u "confirm_purchase") 4, sample_inputs 5)])
            = Some (s, made)) as (s & made & Hrun)
    by (eexists _, _; vm_compute; reflexivity).
  exists s, made. split; [exact Hrun|].
  rewrite (requests_match_confirmations (U := unicode14) _ s made Hrun).
  vm_compute. reflexivity.
Defined.

Lemma references_witness :
  length (format_timestamp new_year) = 14
  /\ length (generate_reference (format_timestamp new_year)
               (u "123e4567-e89b-12d3-a456-426614174000")) = 30.
Proof.
  destruct (references_differ new_year new_year
              (u "123e4567-e89b-12d3-a456-426614174000")
              (u "123e4567-e89b-12d3-a456-426614174000"))
    as (_ & Hlen & Hshape & _).
  - unfold on_calendar. simpl. lia.
  - unfold on_calendar. simpl. lia.
  - split; [exact Hlen|]. apply Hshape. vm_compute. lia.
Defined.



Lemma non_admin_witness :
  exists a made,
    serve (U := unicode14) (ADMIN_USER_IDS (Some (u "1002"))) started admin_trace
    = (a, made)
    /\ admin a = END
    /\ Forall (fun c => admin_action c = false) made.
Proof.
  eexists _, _. split; [vm_compute; reflexivity|].
  apply (non_admin_never_broadcasts (U := unicode14) (ADMIN_USER_IDS (Some (u "1002")))
           alice admin_trace).
  - vm_compute. reflexivity.
  - repeat constructor.
  - vm_compute. reflexivity.
Defined.

Lemma start_ignored_witness :
  process_update (U := unicode14) (ADMIN_USER_IDS None)
    {| purchase := confirming_session; admin := END |}
    (Command (u "start")) (sample_environment 5)
  = ({| purchase := confirming_session; admin := END |}, []).
Proof.
  apply (start_is_ignored_in_conversation (U := unicode14)).
  - simpl. discriminate.
  - simpl. tauto.
Defined.

Lemma admin_button_witness :
  process_update (U := unicode14) (ADMIN_USER_IDS (Some (u "1001")))
    {| purchase := phone_entry_session; admin := ADMIN_COMMAND |}
    (CallbackQuery (u "admin_stats") 4) (sample_environment 5)
  = ({| purchase := phone_entry_session; admin := ADMIN_COMMAND |},
     [Call Answer; ReplyNotice (BotStatistics 25)]).
Proof.
  destruct (admin_buttons_are_handled (U := unicode14)
              (ADMIN_USER_IDS (Some (u "1001")))
              {| purchase := phone_entry_session; admin := ADMIN_COMMAND |}
              (sample_environment 5) (u "admin_stats") 4) as [Hrun _].
  - reflexivity.
  - simpl. tauto.
  - rewrite Hrun. vm_compute. reflexivity.
Defined.
